(** * n8n-server: the tool-dispatch layer of [src/index.ts]

    A shallow embedding of the argument validators, the eight request
    handlers and the [CallToolRequestSchema] handler of the n8n MCP server,
    followed by the properties of the specification that concern them.

    Conventions of the embedding.
    - A JavaScript value is a [value]; TypeScript's interfaces are erased at
      run time, so validated argument records are the object literals the
      validators build, keys in source order.
    - A JavaScript number is an IEEE-754 double ([spec_float]).  The text of a
      number ([Number::toString]) is a builtin of the language and enters as
      the Section variable [Number_toString].
    - Strings are sequences of bytes.
    - The HTTP client ([axiosInstance]) is an oracle from the call made to
      either a response or a raised [AxiosError].
    - An [async] function is a computation in [Async]: it records the calls
      made on the HTTP client and settles with a value or an exception.
    - [console.error] only writes diagnostics and is left out. *)

From Stdlib Require Import String Ascii List Bool ZArith SpecFloat Lia.
Import ListNotations.
Open Scope string_scope.

(** ** JavaScript values *)

Definition number := spec_float.

#[local] Set Warnings "-register-all".

Inductive value : Type :=
| VUndefined
| VNull
| VBool (b : bool)
| VNum (n : number)
| VStr (s : string)
| VArr (elements : list value)
| VObj (properties : list (string * value)).

(** An object: its own enumerable properties in enumeration order. *)
Definition obj := list (string * value).

(** [o.k] for a key [k] that no prototype defines. *)
Fixpoint prop (o : obj) (k : string) : value :=
  match o with
  | [] => VUndefined
  | (k', v) :: rest => if k' =? k then v else prop rest k
  end.

Definition has_own (o : obj) (k : string) : bool :=
  existsb (fun kv => fst kv =? k) o.

(** [typeof v] *)
Definition typeof (v : value) : string :=
  match v with
  | VUndefined => "undefined"
  | VNull => "object"
  | VBool _ => "boolean"
  | VNum _ => "number"
  | VStr _ => "string"
  | VArr _ => "object"
  | VObj _ => "object"
  end.

Definition isArray (v : value) : bool :=
  match v with VArr _ => true | _ => false end.

Definition number_truthy (n : number) : bool :=
  match n with
  | S754_zero _ => false
  | S754_nan => false
  | _ => true
  end.

Definition number_isFinite (n : number) : bool :=
  match n with
  | S754_zero _ => true
  | S754_finite _ _ _ => true
  | _ => false
  end.

(** [ToBoolean]: the falsy values are undefined, null, false, ±0, NaN
    and the empty string. *)
Definition ToBoolean (v : value) : bool :=
  match v with
  | VUndefined => false
  | VNull => false
  | VBool b => b
  | VNum n => number_truthy n
  | VStr s => negb (s =? "")
  | VArr _ => true
  | VObj _ => true
  end.

(** [a || b] *)
Definition or_else (a b : value) : value :=
  if ToBoolean a then a else b.

(** [s.includes(sub)] *)
Fixpoint includes (s sub : string) : bool :=
  String.prefix sub s
  || match s with
     | EmptyString => false
     | String _ rest => includes rest sub
     end.

(** ** Exceptions *)

Inductive ErrorCode := InvalidParams | MethodNotFound | InternalError.

Record AxiosResponse := { status : Z; data : value }.

Record AxiosError := { message : string; response : option AxiosResponse }.

Inductive exn :=
| McpError (code : ErrorCode) (msg : string)
| AxiosErr (e : AxiosError)
| TypeError (msg : string).

(** ** The HTTP client: the calls the handlers make on [axiosInstance] *)

Inductive AxiosCall :=
| axios_get (url : string) (params : option obj)
| axios_post (url : string) (body : option value)
| axios_patch (url : string) (body : option value)
| axios_delete (url : string).

(** ** Settled asynchronous computations *)

Definition Async (A : Type) : Type :=
  list AxiosCall -> list AxiosCall * (exn + A).

Definition ret {A} (a : A) : Async A := fun log => (log, inr a).

Definition throw {A} (e : exn) : Async A := fun log => (log, inl e).

Definition bind {A B} (m : Async A) (k : A -> Async B) : Async B :=
  fun log =>
    match m log with
    | (log', inr a) => k a log'
    | (log', inl e) => (log', inl e)
    end.

(** [try { m } catch (error) { h error }] around awaited code. *)
Definition try_catch {A} (m : Async A) (h : exn -> Async A) : Async A :=
  fun log =>
    match m log with
    | (log', inr a) => (log', inr a)
    | (log', inl e) => h e log'
    end.

(** A synchronous result used where a promise is awaited or returned. *)
Definition lift {A} (r : exn + A) : Async A :=
  match r with
  | inl e => throw e
  | inr a => ret a
  end.

Declare Scope async_scope.
Delimit Scope async_scope with async.
Notation "x <- m ;; k" := (bind m (fun x => k))
  (at level 100, m at next level, right associativity) : async_scope.

(** Running a call from an empty record of HTTP calls. *)
Definition run {A} (m : Async A) : list AxiosCall * (exn + A) := m [].
Definition calls {A} (m : Async A) : list AxiosCall := fst (run m).
Definition outcome {A} (m : Async A) : exn + A := snd (run m).

(** ** Text conversions, parametric in the text of a number *)

Definition quote_char : ascii := "034"%char.
Definition newline : string := String "010"%char "".

Definition hex_digit (n : nat) : ascii :=
  match n with
  | 0 => "0" | 1 => "1" | 2 => "2" | 3 => "3" | 4 => "4" | 5 => "5"
  | 6 => "6" | 7 => "7" | 8 => "8" | 9 => "9" | 10 => "a" | 11 => "b"
  | 12 => "c" | 13 => "d" | 14 => "e" | _ => "f"
  end%char.

(** The escape of one character inside a JSON string literal. *)
Definition quote_one (c : ascii) : string :=
  let n := nat_of_ascii c in
  if (n =? 8)%nat then "\b"
  else if (n =? 9)%nat then "\t"
  else if (n =? 10)%nat then "\n"
  else if (n =? 12)%nat then "\f"
  else if (n =? 13)%nat then "\r"
  else if (n =? 34)%nat then String "\"%char (String quote_char "")
  else if (n =? 92)%nat then "\\"
  else if (n <? 32)%nat then
    "\u00" ++ String (hex_digit (n / 16)) (String (hex_digit (n mod 16)) "")
  else String c "".

Fixpoint quote_body (s : string) : string :=
  match s with
  | EmptyString => ""
  | String c rest => quote_one c ++ quote_body rest
  end.

(** [QuoteJSONString] *)
Definition QuoteJSONString (s : string) : string :=
  String quote_char (quote_body s ++ String quote_char "").

(** [l.join(sep)], given the text of an element. *)
Fixpoint join_with (text : value -> exn + string) (sep : string)
  (l : list value) : exn + string :=
  match l with
  | [] => inr ""
  | x :: rest =>
      match text x with
      | inl e => inl e
      | inr s =>
          match rest with
          | [] => inr s
          | _ :: _ =>
              match join_with text sep rest with
              | inl e => inl e
              | inr t => inr (s ++ sep ++ t)
              end
          end
      end
  end.

(** The texts of the properties of an object in [SerializeJSONObject],
    given the text of a value: a property without text is skipped. *)
Fixpoint property_texts (text : value -> option string) (colon : string)
  (o : list (string * value)) : list string :=
  match o with
  | [] => []
  | (k, x) :: rest =>
      match text x with
      | None => property_texts text colon rest
      | Some s =>
          (QuoteJSONString k ++ colon ++ s) :: property_texts text colon rest
      end
  end.

(** The texts of the elements of an array in [SerializeJSONArray]: an
    element without text is "null". *)
Definition element_texts (text : value -> option string) (l : list value)
  : list string :=
  map (fun x => match text x with None => "null" | Some s => s end) l.

(** The text of an array or object between [open] and [close], from the
    texts of its members. *)
Definition wrap (gap indent stepback open close : string)
  (partial : list string) : string :=
  match partial with
  | [] => open ++ close
  | _ :: _ =>
      if gap =? ""
      then open ++ String.concat "," partial ++ close
      else open ++ newline ++ indent
           ++ String.concat ("," ++ newline ++ indent) partial
           ++ newline ++ stepback ++ close
  end.

Section Text.

Variable Number_toString : number -> string.

(** [ToString], as a template literal and [Array.prototype.join] apply it.
    An array is the comma-join of its elements, undefined and null elements
    counting as empty.  A plain object is ["[object Object]"], unless an own
    [toString] property (never callable in data that came from JSON) hides
    [Object.prototype.toString]: the conversion then raises a TypeError. *)
Fixpoint ToString (v : value) : exn + string :=
  match v with
  | VUndefined => inr "undefined"
  | VNull => inr "null"
  | VBool true => inr "true"
  | VBool false => inr "false"
  | VNum n => inr (Number_toString n)
  | VStr s => inr s
  | VArr l =>
      join_with (fun x => match x with
                          | VUndefined | VNull => inr ""
                          | _ => ToString x
                          end) "," l
  | VObj o =>
      if has_own o "toString"
      then inl (TypeError "Cannot convert object to primitive value")
      else inr "[object Object]"
  end.

(** The text of one element inside [join]. *)
Definition element_text (x : value) : exn + string :=
  match x with
  | VUndefined | VNull => inr ""
  | _ => ToString x
  end.

(** [l.join(sep)] *)
Definition join (sep : string) (l : list value) : exn + string :=
  join_with element_text sep l.

(** [SerializeJSONProperty] of ECMA-262 with the indentation unit [gap] and
    the current indentation [indent]: an undefined value has no text, is
    "null" inside an array and is skipped with its key inside an object;
    a number that is not finite is "null". *)
Fixpoint SerializeJSONProperty (gap indent : string) (v : value)
  : option string :=
  match v with
  | VUndefined => None
  | VNull => Some "null"
  | VBool true => Some "true"
  | VBool false => Some "false"
  | VNum n => Some (if number_isFinite n then Number_toString n else "null")
  | VStr s => Some (QuoteJSONString s)
  | VArr l =>
      Some (wrap gap (indent ++ gap) indent "[" "]"
              (element_texts (SerializeJSONProperty gap (indent ++ gap)) l))
  | VObj o =>
      Some (wrap gap (indent ++ gap) indent "{" "}"
              (property_texts (SerializeJSONProperty gap (indent ++ gap))
                 (if gap =? "" then ":" else ": ") o))
  end.

(** [JSON.stringify(v, null, 2)], undefined when [v] is. *)
Definition JSON_stringify_2 (v : value) : value :=
  match SerializeJSONProperty "  " "" v with
  | Some s => VStr s
  | None => VUndefined
  end.

(** [JSON.stringify(v)]: the text the HTTP client puts on the wire for a
    request body under [Content-Type: application/json]. *)
Definition JSON_stringify (v : value) : option string :=
  SerializeJSONProperty "" "" v.

End Text.

(** ** Validation functions (lines 73-116)

    A validator runs synchronously: it returns the validated object or
    throws. *)

Definition validateWorkflowId (args : obj) : exn + obj :=
  if negb (ToBoolean (prop args "id"))
     || negb (typeof (prop args "id") =? "string")
  then inl (McpError InvalidParams
              "Workflow ID is required and must be a string")
  else inr [("id", prop args "id")].

Definition validateCreateWorkflow (args : obj) : exn + obj :=
  if negb (ToBoolean (prop args "name"))
     || negb (typeof (prop args "name") =? "string")
  then inl (McpError InvalidParams
              "Workflow name is required and must be a string")
  else inr
    [("name", prop args "name");
     ("nodes", if isArray (prop args "nodes")
               then prop args "nodes" else VArr []);
     ("connections", if typeof (prop args "connections") =? "object"
                     then prop args "connections" else VObj []);
     ("active", if typeof (prop args "active") =? "boolean"
                then prop args "active" else VBool false);
     ("tags", if isArray (prop args "tags")
              then prop args "tags" else VArr []);
     ("settings",
      if (typeof (prop args "settings") =? "object")
         && negb (match prop args "settings" with
                  | VNull => true
                  | _ => false
                  end)
      then prop args "settings"
      else VObj [("executionOrder", VStr "v1")])].

Definition validateUpdateWorkflow (args : obj) : exn + obj :=
  if negb (ToBoolean (prop args "id"))
     || negb (typeof (prop args "id") =? "string")
  then inl (McpError InvalidParams
              "Workflow ID is required and must be a string")
  else inr
    [("id", prop args "id");
     ("name", if typeof (prop args "name") =? "string"
              then prop args "name" else VUndefined);
     ("nodes", if isArray (prop args "nodes")
               then prop args "nodes" else VUndefined);
     ("connections", if typeof (prop args "connections") =? "object"
                     then prop args "connections" else VUndefined);
     ("active", if typeof (prop args "active") =? "boolean"
                then prop args "active" else VUndefined);
     ("tags", if isArray (prop args "tags")
              then prop args "tags" else VUndefined)].

Definition validateExecuteWorkflow (args : obj) : exn + obj :=
  if negb (ToBoolean (prop args "id"))
     || negb (typeof (prop args "id") =? "string")
  then inl (McpError InvalidParams
              "Workflow ID is required and must be a string")
  else inr
    [("id", prop args "id");
     ("data", if typeof (prop args "data") =? "object"
              then prop args "data" else VObj [])].

(** ** Object helpers used by the handlers *)

(** [v !== undefined] *)
Definition is_defined (v : value) : bool :=
  match v with VUndefined => false | _ => true end.

(** [o.k = v] *)
Fixpoint set_prop (o : obj) (k : string) (v : value) : obj :=
  match o with
  | [] => [(k, v)]
  | (k', v') :: rest =>
      if k' =? k then (k', v) :: rest else (k', v') :: set_prop rest k v
  end.

(** [const { k, ...rest } = o]: the properties of [o] other than [k]. *)
Definition rest_without (k : string) (o : obj) : obj :=
  filter (fun kv => negb (fst kv =? k)) o.

(** The success envelope [{ content: [{ type: 'text', text }] }]. *)
Definition text_content (text : value) : value :=
  VObj [("content", VArr [VObj [("type", VStr "text"); ("text", text)]])].

Definition html_diagnostic : string :=
  "Error: Received HTML instead of JSON. Please check that N8N_API_URL points to the API endpoint (should end with /api/v1)".

(** ** The tool catalog (lines 158-319): name, description and required
    arguments of each tool, in the order served. *)

Record Tool := {
  tool_name : string;
  description : string;
  required : list string
}.

Definition tools : list Tool :=
  [ {| tool_name := "list_workflows";
       description := "List all workflows";
       required := [] |};
    {| tool_name := "get_workflow";
       description := "Get a specific workflow by ID";
       required := ["id"] |};
    {| tool_name := "create_workflow";
       description := "Create a new workflow";
       required := ["name"] |};
    {| tool_name := "update_workflow";
       description := "Update an existing workflow";
       required := ["id"] |};
    {| tool_name := "delete_workflow";
       description := "Delete a workflow";
       required := ["id"] |};
    {| tool_name := "activate_workflow";
       description := "Activate a workflow";
       required := ["id"] |};
    {| tool_name := "deactivate_workflow";
       description := "Deactivate a workflow";
       required := ["id"] |};
    {| tool_name := "execute_workflow";
       description := "Execute a workflow";
       required := ["id"] |} ].

Definition tool_names : list string := map tool_name tools.

(** The tools whose schema requires [id]. *)
Definition id_tools : list string :=
  map tool_name (filter (fun t => existsb (String.eqb "id") (required t)) tools).

(** ** The server (lines 118-538) *)

Section Server.

Variable Number_toString : number -> string.
Variable axiosInstance : AxiosCall -> AxiosError + AxiosResponse.

#[local] Open Scope async_scope.

(** [await this.axiosInstance.<method>(...)]: the call is recorded, and the
    client either answers or raises. *)
Definition await_axios (c : AxiosCall) : Async AxiosResponse :=
  fun log =>
    ((log ++ [c])%list,
     match axiosInstance c with
     | inl e => inl (AxiosErr e)
     | inr r => inr r
     end).

(** [`${v}`] *)
Definition template (v : value) : Async string :=
  lift (ToString Number_toString v).

(** [v.join(sep)]: only an array has the method; on any other value the
    property is undefined, or an uncallable own property of an object. *)
Definition call_join (v : value) (sep : string) : exn + string :=
  match v with
  | VArr l => join Number_toString sep l
  | _ => inl (TypeError "args.tags.join is not a function")
  end.

(** [typeof v === 'string' && v.includes(sub)] *)
Definition string_including (v : value) (sub : string) : bool :=
  (typeof v =? "string")
  && match v with VStr s => includes s sub | _ => false end.

(** Lines 360-362: the query parameters of a list call. *)
Definition list_params (args : obj) : exn + obj :=
  let params : obj := [] in
  let params :=
    if is_defined (prop args "active")
    then set_prop params "active" (prop args "active")
    else params in
  if ToBoolean (prop args "tags")
  then match call_join (prop args "tags") "," with
       | inl e => inl e
       | inr joined => inr (set_prop params "tags" (VStr joined))
       end
  else inr params.

Definition handleListWorkflows (args : obj) : Async value :=
  params <- lift (list_params args) ;;
  try_catch
    (response <- await_axios (axios_get "/workflows" (Some params)) ;;
     if string_including (data response) "<!DOCTYPE html>"
     then ret (text_content (VStr html_diagnostic))
     else ret (text_content (JSON_stringify_2 Number_toString (data response))))
    (fun error => throw error).

Definition handleGetWorkflow (args : obj) : Async value :=
  try_catch
    (id <- template (prop args "id") ;;
     response <- await_axios (axios_get ("/workflows/" ++ id) None) ;;
     ret (text_content (JSON_stringify_2 Number_toString (data response))))
    (fun error => _ <- template (prop args "id") ;; throw error).

Definition handleCreateWorkflow (args : obj) : Async value :=
  let payload :=
    VObj [("name", prop args "name");
          ("nodes", or_else (prop args "nodes") (VArr []));
          ("connections", or_else (prop args "connections") (VObj []));
          ("settings", or_else (prop args "settings")
                         (VObj [("executionOrder", VStr "v1")]))] in
  try_catch
    (response <- await_axios (axios_post "/workflows" (Some payload)) ;;
     ret (text_content (JSON_stringify_2 Number_toString (data response))))
    (fun error => throw error).

Definition handleUpdateWorkflow (args : obj) : Async value :=
  let id := prop args "id" in
  let data_ := rest_without "id" args in
  try_catch
    (id <- template id ;;
     response <- await_axios
                   (axios_patch ("/workflows/" ++ id) (Some (VObj data_))) ;;
     ret (text_content (JSON_stringify_2 Number_toString (data response))))
    (fun error => _ <- template id ;; throw error).

Definition handleDeleteWorkflow (args : obj) : Async value :=
  try_catch
    (id <- template (prop args "id") ;;
     response <- await_axios (axios_delete ("/workflows/" ++ id)) ;;
     text <- (if ToBoolean (data response)
              then ret (JSON_stringify_2 Number_toString (data response))
              else id <- template (prop args "id") ;;
                   ret (VStr ("Workflow " ++ id ++ " deleted successfully"))) ;;
     ret (text_content text))
    (fun error => _ <- template (prop args "id") ;; throw error).

Definition handleActivateWorkflow (args : obj) : Async value :=
  try_catch
    (id <- template (prop args "id") ;;
     response <- await_axios
                   (axios_post ("/workflows/" ++ id ++ "/activate") None) ;;
     ret (text_content (JSON_stringify_2 Number_toString (data response))))
    (fun error => _ <- template (prop args "id") ;; throw error).

Definition handleDeactivateWorkflow (args : obj) : Async value :=
  try_catch
    (id <- template (prop args "id") ;;
     response <- await_axios
                   (axios_post ("/workflows/" ++ id ++ "/deactivate") None) ;;
     ret (text_content (JSON_stringify_2 Number_toString (data response))))
    (fun error => _ <- template (prop args "id") ;; throw error).

Definition handleExecuteWorkflow (args : obj) : Async value :=
  try_catch
    (id <- template (prop args "id") ;;
     response <- await_axios
                   (axios_post ("/workflows/" ++ id ++ "/execute")
                      (Some (or_else (prop args "data") (VObj [])))) ;;
     ret (text_content (JSON_stringify_2 Number_toString (data response))))
    (fun error => _ <- template (prop args "id") ;; throw error).

(** ** The [CallToolRequestSchema] handler (lines 321-356) *)

Record CallToolRequest := { name : string; arguments : option obj }.

(** [request.params.arguments || {}] *)
Definition request_arguments (request : CallToolRequest) : obj :=
  match arguments request with
  | Some o => o
  | None => []
  end.

(** [validate(args)] followed by the call of the handler on its result:
    a validator that throws does so before the handler is entered. *)
Definition validated (v : exn + obj) (handler : obj -> Async value)
  : exn + Async value :=
  match v with
  | inl e => inl e
  | inr a => inr (handler a)
  end.

(** The [switch] inside the [try] block.  Each [case] returns the promise of
    an [async] handler without awaiting it, so the only exceptions raised
    inside the block are the synchronous ones: those of the validators and
    of the [default] case. *)
Definition switch_tool (request : CallToolRequest) (args : obj)
  : exn + Async value :=
  let n := name request in
  if n =? "list_workflows" then inr (handleListWorkflows args)
  else if n =? "get_workflow" then
    validated (validateWorkflowId args) handleGetWorkflow
  else if n =? "create_workflow" then
    validated (validateCreateWorkflow args) handleCreateWorkflow
  else if n =? "update_workflow" then
    validated (validateUpdateWorkflow args) handleUpdateWorkflow
  else if n =? "delete_workflow" then
    validated (validateWorkflowId args) handleDeleteWorkflow
  else if n =? "activate_workflow" then
    validated (validateWorkflowId args) handleActivateWorkflow
  else if n =? "deactivate_workflow" then
    validated (validateWorkflowId args) handleDeactivateWorkflow
  else if n =? "execute_workflow" then
    validated (validateExecuteWorkflow args) handleExecuteWorkflow
  else inl (McpError MethodNotFound ("Unknown tool: " ++ n)).

(** [error.response?.data?.message]: only an object can own a [message]. *)
Definition response_data_message (e : AxiosError) : value :=
  match response e with
  | None => VUndefined
  | Some r =>
      match data r with
      | VObj o => prop o "message"
      | _ => VUndefined
      end
  end.

(** The [catch] clause of the request handler. *)
Definition catch_clause (error : exn) : Async value :=
  match error with
  | AxiosErr e =>
      let message_ := or_else (response_data_message e) (VStr (message e)) in
      text <- template message_ ;;
      throw (McpError InternalError ("n8n API error: " ++ text))
  | _ => throw error
  end.

(** The request handler.  A promise returned from inside [try] is not
    awaited there: the promise of the request handler takes its state, and
    a rejection of it never enters [catch_clause]. *)
Definition CallToolHandler (request : CallToolRequest) : Async value :=
  let args := request_arguments request in
  match switch_tool request args with
  | inr promise => promise
  | inl error => catch_clause error
  end.

End Server.

(** ** Configuration (lines 12-20 and 138-146) *)

(** [s.endsWith(t)]: the last [length t] characters of [s], when it has as
    many, are [t]. *)
Definition endsWith (s t : string) : bool :=
  if (String.length s <? String.length t)%nat then false
  else substring (String.length s - String.length t) (String.length t) s =? t.

(** Line 20: the base URL of the HTTP client. *)
Definition baseUrl (API_URL : string) : string :=
  if endsWith API_URL "/api/v1" then API_URL else API_URL ++ "/api/v1".

(** Line 145: the statuses for which the HTTP client answers instead of
    raising. *)
Definition validateStatus (status : Z) : bool := (status <? 500)%Z.

(** ** Vocabulary of the properties *)

(** A call of [tool] with the arguments [args]. *)
Definition call (tool : string) (args : obj) : CallToolRequest :=
  {| name := tool; arguments := Some args |}.

(** The properties of an object that reach its JSON text: those whose
    value is not undefined (see [JSON_stringify_sent_properties]). *)
Definition sent_properties (o : obj) : obj :=
  filter (fun kv => is_defined (snd kv)) o.

Definition is_string (v : value) : bool :=
  match v with VStr _ => true | _ => false end.

Definition is_boolean (v : value) : bool :=
  match v with VBool _ => true | _ => false end.

Definition is_mapping (v : value) : bool :=
  match v with VObj _ => true | _ => false end.

Definition is_mapping_or_array (v : value) : bool :=
  match v with VObj _ | VArr _ => true | _ => false end.

(** Property [k] of [args], when [accepts] holds of its value. *)
Definition kept (k : string) (accepts : value -> bool) (args : obj) : obj :=
  if accepts (prop args k) then [(k, prop args k)] else [].

Definition invalid_id : exn :=
  McpError InvalidParams "Workflow ID is required and must be a string".

Definition invalid_name : exn :=
  McpError InvalidParams "Workflow name is required and must be a string".

(** The body of a create request for the name [n] and nothing else. *)
Definition create_payload (n : string) : value :=
  VObj [("name", VStr n);
        ("nodes", VArr []);
        ("connections", VObj []);
        ("settings", VObj [("executionOrder", VStr "v1")])].

(** The body of a request, when it has one. *)
Definition request_body (c : AxiosCall) : option value :=
  match c with
  | axios_post _ b => b
  | axios_patch _ b => b
  | _ => None
  end.

(** *** The update body in the words of the specification: every optional
    field is kept exactly when it is of its declared type. *)
Definition spec_update_body (args : obj) : obj :=
  (kept "name" is_string args ++ kept "nodes" isArray args
   ++ kept "connections" is_mapping args ++ kept "active" is_boolean args
   ++ kept "tags" isArray args)%list.

(** The update body of the code where [connections] is not null: an array
    is accepted for [connections] as well. *)
Definition code_update_body (args : obj) : obj :=
  (kept "name" is_string args ++ kept "nodes" isArray args
   ++ kept "connections" is_mapping_or_array args
   ++ kept "active" is_boolean args ++ kept "tags" isArray args)%list.

(** [tags] provided and non-empty, in the words of the specification. *)
Definition provided_nonempty (v : value) : bool :=
  match v with
  | VArr (_ :: _) => true
  | _ => false
  end.

(** The [data] of an execute call in the words of the specification. *)
Definition spec_execute_data (v : value) : value :=
  if is_mapping v then v else VObj [].

(** The [data] of an execute call as the code posts it. *)
Definition code_execute_data (v : value) : value :=
  if is_mapping_or_array v then v else VObj [].

(** *** List and execute in the words of the specification, as properties
    of one call *)

Definition list_as_specified (Number_toString : number -> string)
  (axiosInstance : AxiosCall -> AxiosError + AxiosResponse) (args : obj)
  : Prop :=
  forall url params,
    calls (CallToolHandler Number_toString axiosInstance
             (call "list_workflows" args))
    = [axios_get url (Some params)] ->
    has_own params "active" = is_defined (prop args "active")
    /\ has_own params "tags" = provided_nonempty (prop args "tags").

Definition execute_as_specified (Number_toString : number -> string)
  (axiosInstance : AxiosCall -> AxiosError + AxiosResponse) (args : obj)
  : Prop :=
  forall v,
    validateExecuteWorkflow args = inr v ->
    prop v "data" = spec_execute_data (prop args "data")
    /\ exists url,
         calls (CallToolHandler Number_toString axiosInstance
                  (call "execute_workflow" args))
         = [axios_post url (Some (prop v "data"))].

(** What a handler that makes the single call [c] settles with: the
    error the client raises, or the response shaped by [shape]. *)
Definition one_call (axiosInstance : AxiosCall -> AxiosError + AxiosResponse)
  (c : AxiosCall) (shape : AxiosResponse -> value)
  : list AxiosCall * (exn + value) :=
  ([c],
   match axiosInstance c with
   | inl e => inl (AxiosErr e)
   | inr r => inr (shape r)
   end).

(** *** Environments of the examples *)

(** A text of numbers for the examples, none of which prints a number. *)
Definition number_text (n : number) : string := "0".

(** A client that answers every call with status 200 and the body [d]. *)
Definition answering (d : value) (c : AxiosCall) : AxiosError + AxiosResponse :=
  inr {| status := 200; data := d |}.

(** A client that raises [e] on every call. *)
Definition raising (e : AxiosError) (c : AxiosCall)
  : AxiosError + AxiosResponse :=
  inl e.

Definition rate_limited : AxiosError :=
  {| message := "Request failed with status code 500";
     response :=
       Some {| status := 500;
               data := VObj [("message", VStr "rate limited")] |} |}.

(** *** Requests *)

Inductive Method := GET | POST | PATCH | DELETE.

Definition call_method (c : AxiosCall) : Method :=
  match c with
  | axios_get _ _ => GET
  | axios_post _ _ => POST
  | axios_patch _ _ => PATCH
  | axios_delete _ => DELETE
  end.

Definition call_url (c : AxiosCall) : string :=
  match c with
  | axios_get u _ => u
  | axios_post u _ => u
  | axios_patch u _ => u
  | axios_delete u => u
  end.

(** The HTTP method each tool is expected to use. *)
Definition tool_method (tool : string) : Method :=
  if (tool =? "list_workflows") || (tool =? "get_workflow") then GET
  else if tool =? "update_workflow" then PATCH
  else if tool =? "delete_workflow" then DELETE
  else POST.

(** A required argument as the validators accept it: a non-empty string. *)
Definition nonempty_string (v : value) : bool :=
  match v with
  | VStr s => negb (s =? "")
  | _ => false
  end.

(** The rejection of a missing required argument [k]. *)
Definition invalid_required (k : string) : exn :=
  if k =? "name" then invalid_name else invalid_id.

(** The body of a create request, field by field. *)
Definition create_body (args : obj) : value :=
  VObj [("name", prop args "name");
        ("nodes", if isArray (prop args "nodes")
                  then prop args "nodes" else VArr []);
        ("connections", if is_mapping_or_array (prop args "connections")
                        then prop args "connections" else VObj []);
        ("settings", if is_mapping_or_array (prop args "settings")
                     then prop args "settings"
                     else VObj [("executionOrder", VStr "v1")])].

(** An HTTP client configured with [validateStatus]: whenever the remote
    service answers a call with an accepted status, the client returns that
    answer. *)
Definition respects_validateStatus
  (remote : AxiosCall -> Z * value)
  (axiosInstance : AxiosCall -> AxiosError + AxiosResponse) : Prop :=
  forall c,
    validateStatus (fst (remote c)) = true ->
    axiosInstance c = inr {| status := fst (remote c); data := snd (remote c) |}.

(** A client that returns the answer of the remote service when its status
    is accepted and raises otherwise. *)
Definition settling (remote : AxiosCall -> Z * value) (c : AxiosCall)
  : AxiosError + AxiosResponse :=
  let answer := {| status := fst (remote c); data := snd (remote c) |} in
  if validateStatus (fst (remote c)) then inr answer
  else inl {| message := "Request failed"; response := Some answer |}.

(** * Properties *)

(** ** Values *)

Lemma typeof_string (v : value) :
  (typeof v =? "string") = is_string v.
Proof. destruct v; reflexivity. Qed.

Lemma nonempty_eqb (s : string) : s <> "" -> (s =? "") = false.
Proof. intro H. now apply String.eqb_neq. Qed.

Lemma typeof_boolean (v : value) :
  (typeof v =? "boolean") = is_boolean v.
Proof. destruct v; reflexivity. Qed.

Lemma typeof_object (v : value) :
  v <> VNull -> (typeof v =? "object") = is_mapping_or_array v.
Proof. destruct v; try reflexivity. intros H. now destruct H. Qed.

(** A required string that passed its test is a non-empty string. *)
Lemma required_string (v : value) :
  negb (ToBoolean v) || negb (typeof v =? "string") = false ->
  exists s, v = VStr s /\ s <> "".
Proof.
  destruct v; simpl; rewrite ?orb_true_r; try discriminate.
  intros H. exists s. split; [reflexivity|].
  intros ->. discriminate.
Qed.

Section TextProperties.

Variable Number_toString : number -> string.

(** Only an undefined value has no JSON text. *)
Lemma SerializeJSONProperty_None (gap indent : string) (v : value) :
  SerializeJSONProperty Number_toString gap indent v = None
  <-> is_defined v = false.
Proof.
  destruct v as [| |[|]| | | |]; simpl; split; congruence.
Qed.

(** The JSON text of an object is that of its defined properties: a key
    whose value is undefined is not sent. *)
Lemma property_texts_sent_properties (text : value -> option string)
  (colon : string) (o : obj) :
  (forall v, text v = None <-> is_defined v = false) ->
  property_texts text colon o = property_texts text colon (sent_properties o).
Proof.
  intros Htext.
  induction o as [|[k x] o IH]; [reflexivity|].
  cbn [sent_properties filter snd property_texts].
  destruct (is_defined x) eqn:D.
  - cbn [property_texts]. fold (sent_properties o). rewrite <- IH. reflexivity.
  - apply Htext in D. rewrite D. exact IH.
Qed.

Lemma SerializeJSONProperty_sent_properties (gap indent : string) (o : obj) :
  SerializeJSONProperty Number_toString gap indent (VObj o)
  = SerializeJSONProperty Number_toString gap indent (VObj (sent_properties o)).
Proof.
  cbn [SerializeJSONProperty].
  rewrite <- property_texts_sent_properties; [reflexivity|].
  intros v. apply SerializeJSONProperty_None.
Qed.

Lemma JSON_stringify_sent_properties (o : obj) :
  JSON_stringify Number_toString (VObj o)
  = JSON_stringify Number_toString (VObj (sent_properties o)).
Proof. apply SerializeJSONProperty_sent_properties. Qed.

(** Joining strings is concatenation with the separator. *)
Lemma join_strings (sep : string) (l : list string) :
  join Number_toString sep (map VStr l) = inr (String.concat sep l).
Proof.
  unfold join.
  induction l as [|a l IH]; [reflexivity|].
  cbn [map join_with element_text ToString].
  destruct l as [|b l]; [reflexivity|].
  cbn [map] in IH |- *. rewrite IH. reflexivity.
Qed.

(** A conversion to text fails with a TypeError only. *)
Lemma ToString_error :
  forall (v : value) (e : exn),
    ToString Number_toString v = inl e -> exists m, e = TypeError m.
Proof.
  fix IH 1. intros v e.
  destruct v as [| |[|]| | |l|o]; cbn [ToString]; try discriminate.
  - induction l as [|x l IHl]; cbn [join_with]; [discriminate|].
    pose proof (IH x) as Hx.
    destruct (match x with
              | VUndefined | VNull => inr ""
              | _ => ToString Number_toString x
              end) as [e'|s] eqn:Hx'.
    + intros [= <-]. apply Hx.
      destruct x; try discriminate Hx'; exact Hx'.
    + destruct l as [|y l]; [discriminate|].
      destruct (join_with _ "," (y :: l)) as [e'|t]; [|discriminate].
      intros [= <-]. now apply IHl.
  - destruct (has_own o "toString"); [|discriminate].
    intros [= <-]. eauto.
Qed.

Lemma join_error (sep : string) (l : list value) (e : exn) :
  join Number_toString sep l = inl e -> exists m, e = TypeError m.
Proof.
  unfold join.
  induction l as [|x l IHl]; cbn [join_with]; [discriminate|].
  destruct (element_text Number_toString x) as [e'|s] eqn:Hx.
  - intros [= <-]. unfold element_text in Hx.
    destruct x; try discriminate Hx;
      exact (ToString_error _ _ Hx).
  - destruct l as [|y l]; [discriminate|].
    destruct (join_with _ sep (y :: l)) as [e'|t]; [|discriminate].
    intros [= <-]. now apply IHl.
Qed.

End TextProperties.

(** ** The catalog *)

Lemma tool_names_eq :
  tool_names
  = ["list_workflows"; "get_workflow"; "create_workflow"; "update_workflow";
     "delete_workflow"; "activate_workflow"; "deactivate_workflow";
     "execute_workflow"].
Proof. reflexivity. Qed.

Lemma id_tools_eq :
  id_tools
  = ["get_workflow"; "update_workflow"; "delete_workflow";
     "activate_workflow"; "deactivate_workflow"; "execute_workflow"].
Proof. reflexivity. Qed.

(** ** Validators *)

Lemma validateWorkflowId_cases (args : obj) :
  validateWorkflowId args = inl invalid_id
  \/ exists i, i <> "" /\ prop args "id" = VStr i
               /\ validateWorkflowId args = inr [("id", VStr i)].
Proof.
  unfold validateWorkflowId.
  destruct (negb (ToBoolean (prop args "id")) || _) eqn:E; [now left|].
  right. destruct (required_string _ E) as (i & Hi & Hne).
  exists i. rewrite Hi. auto.
Qed.

Lemma validateUpdateWorkflow_cases (args : obj) :
  validateUpdateWorkflow args = inl invalid_id
  \/ exists i rest, i <> "" /\ prop args "id" = VStr i
       /\ validateUpdateWorkflow args = inr (("id", VStr i) :: rest)
       /\ rest_without "id" rest = rest.
Proof.
  unfold validateUpdateWorkflow.
  destruct (negb (ToBoolean (prop args "id")) || _) eqn:E; [now left|].
  right. destruct (required_string _ E) as (i & Hi & Hne).
  exists i. rewrite Hi. eexists. repeat split; assumption || reflexivity.
Qed.

Lemma validateExecuteWorkflow_cases (args : obj) :
  validateExecuteWorkflow args = inl invalid_id
  \/ exists i, i <> "" /\ prop args "id" = VStr i
       /\ validateExecuteWorkflow args
          = inr [("id", VStr i);
                 ("data", if typeof (prop args "data") =? "object"
                          then prop args "data" else VObj [])].
Proof.
  unfold validateExecuteWorkflow.
  destruct (negb (ToBoolean (prop args "id")) || _) eqn:E; [now left|].
  right. destruct (required_string _ E) as (i & Hi & Hne).
  exists i. rewrite Hi. auto.
Qed.

Lemma validateCreateWorkflow_cases (args : obj) :
  validateCreateWorkflow args = inl invalid_name
  \/ exists n rest, n <> "" /\ prop args "name" = VStr n
       /\ validateCreateWorkflow args = inr (("name", VStr n) :: rest).
Proof.
  unfold validateCreateWorkflow.
  destruct (negb (ToBoolean (prop args "name")) || _) eqn:E; [now left|].
  right. destruct (required_string _ E) as (n & Hn & Hne).
  exists n. rewrite Hn. eexists. repeat split; assumption || reflexivity.
Qed.

Lemma validateWorkflowId_ok (args : obj) (i : string) :
  prop args "id" = VStr i -> i <> "" ->
  validateWorkflowId args = inr [("id", VStr i)].
Proof.
  intros Hid Hne. unfold validateWorkflowId.
  rewrite Hid. simpl. now rewrite (nonempty_eqb i Hne).
Qed.

Lemma validateWorkflowId_not_string (args : obj) :
  is_string (prop args "id") = false ->
  validateWorkflowId args = inl invalid_id.
Proof.
  intros H. unfold validateWorkflowId.
  rewrite typeof_string, H. now rewrite orb_true_r.
Qed.

Lemma validateUpdateWorkflow_not_string (args : obj) :
  is_string (prop args "id") = false ->
  validateUpdateWorkflow args = inl invalid_id.
Proof.
  intros H. unfold validateUpdateWorkflow.
  rewrite typeof_string, H. now rewrite orb_true_r.
Qed.

Lemma validateExecuteWorkflow_not_string (args : obj) :
  is_string (prop args "id") = false ->
  validateExecuteWorkflow args = inl invalid_id.
Proof.
  intros H. unfold validateExecuteWorkflow.
  rewrite typeof_string, H. now rewrite orb_true_r.
Qed.

Lemma validators_reject_empty_id (args : obj) :
  prop args "id" = VStr "" ->
  validateWorkflowId args = inl invalid_id
  /\ validateUpdateWorkflow args = inl invalid_id
  /\ validateExecuteWorkflow args = inl invalid_id.
Proof.
  intros H.
  unfold validateWorkflowId, validateUpdateWorkflow, validateExecuteWorkflow.
  rewrite H. auto.
Qed.

(** ** The request handler *)

Section Properties.

Variable Number_toString : number -> string.
Variable axiosInstance : AxiosCall -> AxiosError + AxiosResponse.

#[local] Abbreviation handle :=
  (CallToolHandler Number_toString axiosInstance).

(** *** The handlers on validated arguments *)

Ltac run_handler :=
  unfold run, one_call, try_catch, bind, template, await_axios, lift, ret,
    throw;
  cbn [prop String.eqb Ascii.eqb Bool.eqb ToString app rest_without filter
       fst snd negb];
  match goal with
  | |- context [axiosInstance ?c] => destruct (axiosInstance c)
  end; reflexivity.

Lemma run_handleGetWorkflow (i : string) (rest : obj) :
  run (handleGetWorkflow Number_toString axiosInstance (("id", VStr i) :: rest))
  = one_call axiosInstance (axios_get ("/workflows/" ++ i) None)
      (fun r => text_content (JSON_stringify_2 Number_toString (data r))).
Proof. unfold handleGetWorkflow. run_handler. Qed.

Lemma run_handleActivateWorkflow (i : string) (rest : obj) :
  run (handleActivateWorkflow Number_toString axiosInstance
         (("id", VStr i) :: rest))
  = one_call axiosInstance (axios_post ("/workflows/" ++ i ++ "/activate") None)
      (fun r => text_content (JSON_stringify_2 Number_toString (data r))).
Proof. unfold handleActivateWorkflow. run_handler. Qed.

Lemma run_handleDeactivateWorkflow (i : string) (rest : obj) :
  run (handleDeactivateWorkflow Number_toString axiosInstance
         (("id", VStr i) :: rest))
  = one_call axiosInstance
      (axios_post ("/workflows/" ++ i ++ "/deactivate") None)
      (fun r => text_content (JSON_stringify_2 Number_toString (data r))).
Proof. unfold handleDeactivateWorkflow. run_handler. Qed.

Lemma run_handleDeleteWorkflow (i : string) (rest : obj) :
  run (handleDeleteWorkflow Number_toString axiosInstance
         (("id", VStr i) :: rest))
  = one_call axiosInstance (axios_delete ("/workflows/" ++ i))
      (fun r =>
         text_content
           (if ToBoolean (data r)
            then JSON_stringify_2 Number_toString (data r)
            else VStr ("Workflow " ++ i ++ " deleted successfully"))).
Proof.
  unfold handleDeleteWorkflow, run, one_call, try_catch, bind, template,
    await_axios, lift, ret, throw.
  cbn [prop String.eqb Ascii.eqb Bool.eqb ToString app].
  destruct (axiosInstance _) as [e|r]; [reflexivity|].
  destruct (ToBoolean (data r)); reflexivity.
Qed.

Lemma run_handleExecuteWorkflow (i : string) (d : value) :
  run (handleExecuteWorkflow Number_toString axiosInstance
         [("id", VStr i); ("data", d)])
  = one_call axiosInstance
      (axios_post ("/workflows/" ++ i ++ "/execute")
         (Some (or_else d (VObj []))))
      (fun r => text_content (JSON_stringify_2 Number_toString (data r))).
Proof. unfold handleExecuteWorkflow. run_handler. Qed.

Lemma run_handleUpdateWorkflow (i : string) (rest : obj) :
  rest_without "id" rest = rest ->
  run (handleUpdateWorkflow Number_toString axiosInstance
         (("id", VStr i) :: rest))
  = one_call axiosInstance
      (axios_patch ("/workflows/" ++ i) (Some (VObj rest)))
      (fun r => text_content (JSON_stringify_2 Number_toString (data r))).
Proof.
  intros Hrest. unfold handleUpdateWorkflow.
  replace (rest_without "id" (("id", VStr i) :: rest)) with rest
    by (symmetry; exact Hrest).
  run_handler.
Qed.

Lemma run_handleCreateWorkflow (args : obj) :
  run (handleCreateWorkflow Number_toString axiosInstance args)
  = one_call axiosInstance
      (axios_post "/workflows"
         (Some (VObj
            [("name", prop args "name");
             ("nodes", or_else (prop args "nodes") (VArr []));
             ("connections", or_else (prop args "connections") (VObj []));
             ("settings", or_else (prop args "settings")
                            (VObj [("executionOrder", VStr "v1")]))])))
      (fun r => text_content (JSON_stringify_2 Number_toString (data r))).
Proof.
  unfold handleCreateWorkflow, run, one_call, try_catch, bind, await_axios,
    ret, throw.
  cbn [app]. destruct (axiosInstance _); reflexivity.
Qed.

Lemma run_handleListWorkflows (args : obj) :
  run (handleListWorkflows Number_toString axiosInstance args)
  = match list_params Number_toString args with
    | inl e => ([], inl e)
    | inr params =>
        one_call axiosInstance (axios_get "/workflows" (Some params))
          (fun r =>
             text_content
               (if string_including (data r) "<!DOCTYPE html>"
                then VStr html_diagnostic
                else JSON_stringify_2 Number_toString (data r)))
    end.
Proof.
  unfold handleListWorkflows, run, one_call, try_catch, bind, await_axios,
    lift, ret, throw.
  destruct (list_params Number_toString args) as [e|params]; [reflexivity|].
  cbn [app]. destruct (axiosInstance _) as [e|r]; [reflexivity|].
  destruct (string_including (data r) "<!DOCTYPE html>"); reflexivity.
Qed.

(** *** The request handler, tool by tool *)

Lemma handle_unfold (request : CallToolRequest) :
  run (handle request)
  = match switch_tool Number_toString axiosInstance request
            (request_arguments request) with
    | inr promise => run promise
    | inl error => run (catch_clause Number_toString error)
    end.
Proof.
  unfold CallToolHandler.
  destruct (switch_tool _ _ _ _); reflexivity.
Qed.

(** What the request handler does on a synchronous exception that is not
    an [AxiosError]: no call, the same exception. *)
Lemma sync_throw_propagates (request : CallToolRequest) (e : exn) :
  switch_tool Number_toString axiosInstance request
    (request_arguments request) = inl e ->
  (forall a, e <> AxiosErr a) ->
  run (handle request) = ([], inl e).
Proof.
  intros Hs Hna. unfold run, CallToolHandler. rewrite Hs.
  destruct e; try reflexivity. now destruct (Hna e).
Qed.

(** C6: an operation that requires identification, called with [id] missing
    or not a string, is rejected with InvalidParams and the message
    "Workflow ID is required and must be a string", and the HTTP client is
    never called. *)
Theorem C6_missing_id_no_http_call (request : CallToolRequest) :
  In (name request) id_tools ->
  is_string (prop (request_arguments request) "id") = false ->
  run (handle request) = ([], inl invalid_id).
Proof.
  intros Hop Hid.
  apply sync_throw_propagates; [| discriminate].
  unfold switch_tool.
  simpl in Hop.
  destruct Hop as [<-|[<-|[<-|[<-|[<-|[<-|[]]]]]]]; simpl;
    rewrite ?validateWorkflowId_not_string,
            ?validateUpdateWorkflow_not_string,
            ?validateExecuteWorkflow_not_string by assumption;
    reflexivity.
Qed.

(** C7: an operation name that is none of the eight names of the catalog
    makes no HTTP call and is rejected with MethodNotFound and the message
    "Unknown tool: <name>". *)
Theorem C7_unknown_tool (request : CallToolRequest) :
  ~ In (name request) tool_names ->
  run (handle request)
  = ([], inl (McpError MethodNotFound ("Unknown tool: " ++ name request))).
Proof.
  intros Hn.
  apply sync_throw_propagates; [| discriminate].
  unfold switch_tool.
  repeat match goal with
  | |- context [String.eqb (name request) ?s] =>
      destruct (String.eqb_spec (name request) s) as [E|_];
      [ exfalso; apply Hn; rewrite E; simpl; tauto | ]
  end.
  reflexivity.
Qed.

(** C10: the empty string as [id] is rejected with InvalidParams by every
    operation that requires identification, and the empty string as [name]
    is rejected by create, although each is present and a string: the
    required fields are tested for truthiness too.  No HTTP call is made. *)
Theorem C10_empty_string_rejected (request : CallToolRequest) :
  (In (name request) id_tools ->
   prop (request_arguments request) "id" = VStr "" ->
   typeof (prop (request_arguments request) "id") = "string"
   /\ run (handle request) = ([], inl invalid_id))
  /\ (name request = "create_workflow" ->
      prop (request_arguments request) "name" = VStr "" ->
      typeof (prop (request_arguments request) "name") = "string"
      /\ run (handle request) = ([], inl invalid_name)).
Proof.
  split.
  - intros Hop Hid. split; [now rewrite Hid|].
    apply sync_throw_propagates; [| discriminate].
    destruct (validators_reject_empty_id _ Hid) as (H1 & H2 & H3).
    unfold switch_tool. simpl in Hop.
    destruct Hop as [<-|[<-|[<-|[<-|[<-|[<-|[]]]]]]]; simpl;
      rewrite ?H1, ?H2, ?H3; reflexivity.
  - intros Hop Hname. split; [now rewrite Hname|].
    apply sync_throw_propagates; [| discriminate].
    unfold switch_tool. rewrite Hop. simpl.
    unfold validateCreateWorkflow. rewrite Hname. reflexivity.
Qed.

(** *** Create *)

Lemma create_payload_keys (n : string) :
  exists o, create_payload n = VObj o
    /\ map fst o = ["name"; "nodes"; "connections"; "settings"]
    /\ has_own o "active" = false /\ has_own o "tags" = false.
Proof. eexists. repeat split; reflexivity. Qed.

(** C1: a create call whose arguments hold a string [name] and none of
    [nodes], [connections], [settings] (whatever [tags] and [active] are,
    so also with tags ["x"] and active true) sends no other request than
    POST /workflows with the body {name, nodes: [], connections: {},
    settings: {executionOrder: "v1"}}, which has no [active] and no [tags]
    key; for a non-empty name exactly this one request is sent. *)
Theorem C1_create_payload (args : obj) (n : string) :
  prop args "name" = VStr n ->
  prop args "nodes" = VUndefined ->
  prop args "connections" = VUndefined ->
  prop args "settings" = VUndefined ->
  (forall c, In c (calls (handle (call "create_workflow" args))) ->
     c = axios_post "/workflows" (Some (create_payload n))
     /\ exists o, request_body c = Some (VObj o)
          /\ map fst o = ["name"; "nodes"; "connections"; "settings"]
          /\ has_own o "active" = false /\ has_own o "tags" = false)
  /\ (n <> "" ->
      calls (handle (call "create_workflow" args))
      = [axios_post "/workflows" (Some (create_payload n))]).
Proof.
  intros Hname Hnodes Hconn Hset.
  assert (Hcalls : calls (handle (call "create_workflow" args))
                   = if n =? "" then []
                     else [axios_post "/workflows" (Some (create_payload n))]).
  { unfold calls. rewrite handle_unfold.
    change (switch_tool Number_toString axiosInstance
              (call "create_workflow" args)
              (request_arguments (call "create_workflow" args)))
      with (validated (validateCreateWorkflow args)
              (handleCreateWorkflow Number_toString axiosInstance)).
    unfold validateCreateWorkflow.
    rewrite Hname, Hnodes, Hconn, Hset.
    cbn [ToBoolean typeof]. destruct (n =? ""); [reflexivity|].
    cbn [negb orb String.eqb Ascii.eqb Bool.eqb validated].
    rewrite run_handleCreateWorkflow. reflexivity. }
  split.
  - rewrite Hcalls. destruct (n =? ""); [intros c []|].
    intros c [<-|[]]. split; [reflexivity|].
    cbn [request_body]. eexists. repeat split; reflexivity.
  - intros Hne. rewrite Hcalls, (nonempty_eqb n Hne). reflexivity.
Qed.

(** *** Update *)

Lemma sent_kept (k : string) (c : bool) (v : value) (rest : obj) :
  (c = true -> is_defined v = true) ->
  sent_properties ((k, if c then v else VUndefined) :: rest)
  = ((if c then [(k, v)] else []) ++ sent_properties rest)%list.
Proof.
  intros H. unfold sent_properties. cbn [filter snd].
  destruct c; [rewrite (H eq_refl)|]; reflexivity.
Qed.

Lemma update_calls (args : obj) (i : string) :
  prop args "id" = VStr i -> i <> "" ->
  exists body,
    validateUpdateWorkflow args = inr (("id", VStr i) :: body)
    /\ map fst body = ["name"; "nodes"; "connections"; "active"; "tags"]
    /\ calls (handle (call "update_workflow" args))
       = [axios_patch ("/workflows/" ++ i) (Some (VObj body))]
    /\ sent_properties body
       = (kept "name" is_string args ++ kept "nodes" isArray args
          ++ kept "connections" (fun v => typeof v =? "object") args
          ++ kept "active" is_boolean args ++ kept "tags" isArray args)%list.
Proof.
  intros Hid Hne.
  eexists. split; [|split; [|split]].
  - unfold validateUpdateWorkflow. rewrite Hid.
    cbn [ToBoolean typeof]. rewrite (nonempty_eqb i Hne). reflexivity.
  - reflexivity.
  - unfold calls. rewrite handle_unfold.
    change (switch_tool Number_toString axiosInstance
              (call "update_workflow" args)
              (request_arguments (call "update_workflow" args)))
      with (validated (validateUpdateWorkflow args)
              (handleUpdateWorkflow Number_toString axiosInstance)).
    unfold validateUpdateWorkflow. rewrite Hid.
    cbn [ToBoolean typeof]. rewrite (nonempty_eqb i Hne).
    cbn [negb orb String.eqb Ascii.eqb Bool.eqb validated].
    rewrite run_handleUpdateWorkflow by reflexivity. reflexivity.
  - unfold kept. rewrite <- typeof_string, <- typeof_boolean.
    repeat rewrite sent_kept.
    + rewrite app_nil_r. reflexivity.
    + destruct (prop args "tags"); cbn; congruence.
    + destruct (prop args "active"); cbn; congruence.
    + destruct (prop args "connections"); cbn; congruence.
    + destruct (prop args "nodes"); cbn; congruence.
    + destruct (prop args "name"); cbn; congruence.
Qed.

(** Apart from a null [connections], the body of an update call with a
    non-empty string [id] holds [name] when it is a string, [nodes] when it
    is an array, [connections] when it is a mapping or an array, [active]
    when it is a boolean and [tags] when it is an array, each with the
    value given; any other value leaves the field out of the JSON text of
    the body. *)
Lemma update_body_sent (args : obj) (i : string) :
  prop args "id" = VStr i -> i <> "" ->
  prop args "connections" <> VNull ->
  exists body,
    calls (handle (call "update_workflow" args))
    = [axios_patch ("/workflows/" ++ i) (Some (VObj body))]
    /\ sent_properties body = code_update_body args
    /\ JSON_stringify Number_toString (VObj body)
       = JSON_stringify Number_toString (VObj (code_update_body args)).
Proof.
  intros Hid Hne Hconn.
  destruct (update_calls args i Hid Hne) as (body & _ & _ & Hcalls & Hsent).
  exists body. split; [exact Hcalls|].
  assert (Hb : sent_properties body = code_update_body args).
  { rewrite Hsent. unfold code_update_body, kept.
    rewrite (typeof_object _ Hconn). reflexivity. }
  split; [exact Hb|].
  rewrite JSON_stringify_sent_properties, Hb. reflexivity.
Qed.

(** The update of the specification: only [id] and [name]. *)
Lemma update_rename_only :
  exists body,
    calls (handle (call "update_workflow"
                     [("id", VStr "5"); ("name", VStr "renamed")]))
    = [axios_patch "/workflows/5" (Some (VObj body))]
    /\ sent_properties body = [("name", VStr "renamed")]
    /\ JSON_stringify Number_toString (VObj body)
       = JSON_stringify Number_toString (VObj [("name", VStr "renamed")]).
Proof.
  destruct (update_calls [("id", VStr "5"); ("name", VStr "renamed")] "5")
    as (body & _ & _ & Hcalls & Hsent); [reflexivity|discriminate|].
  exists body. split; [exact Hcalls|].
  split; [exact Hsent|].
  rewrite JSON_stringify_sent_properties, Hsent. reflexivity.
Qed.

(** *** List *)

Lemma list_params_eq (args : obj) :
  list_params Number_toString args
  = if ToBoolean (prop args "tags")
    then match call_join Number_toString (prop args "tags") "," with
         | inl e => inl e
         | inr s => inr (kept "active" is_defined args
                         ++ [("tags", VStr s)])%list
         end
    else inr (kept "active" is_defined args).
Proof.
  unfold list_params, kept.
  destruct (is_defined (prop args "active"));
    destruct (ToBoolean (prop args "tags")); try reflexivity;
    destruct (call_join _ _ _); reflexivity.
Qed.

Lemma list_calls (args : obj) (params : obj) :
  list_params Number_toString args = inr params ->
  run (handle (call "list_workflows" args))
  = one_call axiosInstance (axios_get "/workflows" (Some params))
      (fun r =>
         text_content
           (if string_including (data r) "<!DOCTYPE html>"
            then VStr html_diagnostic
            else JSON_stringify_2 Number_toString (data r))).
Proof.
  intros Hp. rewrite handle_unfold.
  change (switch_tool Number_toString axiosInstance
            (call "list_workflows" args)
            (request_arguments (call "list_workflows" args)))
    with (@inr exn _ (handleListWorkflows Number_toString axiosInstance args)).
  cbv iota. rewrite run_handleListWorkflows, Hp. reflexivity.
Qed.

Lemma kept_active (args : obj) :
  has_own (kept "active" is_defined args) "active"
  = is_defined (prop args "active")
  /\ prop (kept "active" is_defined args) "active" = prop args "active"
  /\ has_own (kept "active" is_defined args) "tags" = false
  /\ prop (kept "active" is_defined args) "tags" = VUndefined.
Proof.
  unfold kept. destruct (prop args "active"); repeat split; reflexivity.
Qed.

Lemma has_own_app (o1 o2 : obj) (k : string) :
  has_own (o1 ++ o2)%list k = has_own o1 k || has_own o2 k.
Proof. unfold has_own. apply existsb_app. Qed.

Lemma prop_app (o1 o2 : obj) (k : string) :
  prop (o1 ++ o2)%list k = if has_own o1 k then prop o1 k else prop o2 k.
Proof.
  induction o1 as [|[k' v] o1 IH]; [reflexivity|].
  cbn [app prop has_own existsb fst].
  destruct (k' =? k); [reflexivity|]. exact IH.
Qed.

(** C3, as the code has it: a list call whose [tags] is falsy (absent
    too) or an array whose elements convert to text sends GET /workflows
    whose query holds [active] exactly when the caller provided it, with
    the value given, and [tags] exactly when the provided [tags] is truthy,
    which every array is, the empty one too; for an array the value is the
    comma-joined text of its elements, the empty string for the empty
    array, so that {active: true, tags: ["a","b"]} gives active=true and
    tags=a,b. *)
Theorem C3_list_query (args : obj) :
  (ToBoolean (prop args "tags") = false
   \/ exists l s, prop args "tags" = VArr l
                  /\ join Number_toString "," l = inr s) ->
  exists params,
    calls (handle (call "list_workflows" args))
    = [axios_get "/workflows" (Some params)]
    /\ has_own params "active" = is_defined (prop args "active")
    /\ prop params "active" = prop args "active"
    /\ has_own params "tags" = ToBoolean (prop args "tags")
    /\ (forall l, prop args "tags" = VArr l ->
        exists s, join Number_toString "," l = inr s
                  /\ prop params "tags" = VStr s)
    /\ (forall tags, prop args "tags" = VArr (map VStr tags) ->
        prop params "tags" = VStr (String.concat "," tags)).
Proof.
  intros Htags.
  destruct (kept_active args) as (Ka & Kb & Kc & Kd).
  destruct Htags as [Hf | (l & s & Hl & Hj)].
  - exists (kept "active" is_defined args).
    assert (Hp : list_params Number_toString args
                 = inr (kept "active" is_defined args))
      by (rewrite list_params_eq, Hf; reflexivity).
    unfold calls. rewrite (list_calls args _ Hp), Hf.
    repeat split; auto.
    + intros l Hl. rewrite Hl in Hf. discriminate.
    + intros tags Hl. rewrite Hl in Hf. discriminate.
  - exists (kept "active" is_defined args ++ [("tags", VStr s)])%list.
    assert (Hp : list_params Number_toString args
                 = inr (kept "active" is_defined args
                        ++ [("tags", VStr s)])%list).
    { rewrite list_params_eq, Hl. cbn [ToBoolean call_join].
      rewrite Hj. reflexivity. }
    unfold calls. rewrite (list_calls args _ Hp).
    rewrite !has_own_app, !prop_app, Ka, Kc, Hl. cbn [ToBoolean].
    repeat split.
    + cbn. apply orb_false_r.
    + destruct (is_defined (prop args "active")) eqn:D; [exact Kb|].
      destruct (prop args "active"); try discriminate. reflexivity.
    + intros l' [= <-]. exists s. split; [exact Hj|reflexivity].
    + intros tags [= ->]. rewrite join_strings in Hj.
      injection Hj as <-. reflexivity.
Qed.

(** The list call of the specification. *)
Lemma list_active_and_two_tags :
  calls (handle (call "list_workflows"
                   [("active", VBool true);
                    ("tags", VArr [VStr "a"; VStr "b"])]))
  = [axios_get "/workflows"
       (Some [("active", VBool true); ("tags", VStr "a,b")])].
Proof.
  unfold calls. erewrite list_calls; reflexivity.
Qed.



(** *** Delete *)


(** *** Execute *)

(** C4, as the code has it: for an execute call with a non-empty string
    [id], [validateExecuteWorkflow] sets [data] to the input when the input
    is a mapping or an array and to the empty mapping when it is absent or
    a boolean, a number or a string; the body of the POST is the input when
    it is a mapping or an array and the empty mapping otherwise, also for
    null. *)
Theorem C4_execute_data (args : obj) (i : string) :
  prop args "id" = VStr i -> i <> "" ->
  exists v,
    validateExecuteWorkflow args = inr v
    /\ (prop args "data" <> VNull ->
        prop v "data" = code_execute_data (prop args "data"))
    /\ calls (handle (call "execute_workflow" args))
       = [axios_post ("/workflows/" ++ i ++ "/execute")
            (Some (code_execute_data (prop args "data")))].
Proof.
  intros Hid Hne.
  assert (Hv : validateExecuteWorkflow args
               = inr [("id", VStr i);
                      ("data", if typeof (prop args "data") =? "object"
                               then prop args "data" else VObj [])]).
  { unfold validateExecuteWorkflow. rewrite Hid. cbn [ToBoolean typeof].
    rewrite (nonempty_eqb i Hne). reflexivity. }
  eexists. split; [exact Hv|]. split.
  - intros Hnull. cbn [prop String.eqb Ascii.eqb Bool.eqb].
    rewrite (typeof_object _ Hnull). reflexivity.
  - unfold calls. rewrite handle_unfold.
    change (switch_tool Number_toString axiosInstance
              (call "execute_workflow" args)
              (request_arguments (call "execute_workflow" args)))
      with (validated (validateExecuteWorkflow args)
              (handleExecuteWorkflow Number_toString axiosInstance)).
    rewrite Hv. cbn [validated]. rewrite run_handleExecuteWorkflow.
    unfold one_call. cbn [fst]. do 3 f_equal.
    destruct (prop args "data"); reflexivity.
Qed.

(** *** Errors of the HTTP client *)

Lemma list_params_error (args : obj) (e : exn) :
  list_params Number_toString args = inl e -> exists m, e = TypeError m.
Proof.
  rewrite list_params_eq.
  destruct (ToBoolean (prop args "tags")); [|discriminate].
  destruct (call_join _ _ _) as [e'|s] eqn:Hj; [|discriminate].
  intros [= <-]. unfold call_join in Hj.
  destruct (prop args "tags"); try (injection Hj as <-; eauto).
  exact (join_error _ _ _ _ Hj).
Qed.

(** Every call of the request handler either makes no HTTP call and is
    rejected with InvalidParams, MethodNotFound or a TypeError, or makes
    one HTTP call and settles with the shaped response or with the very
    error the client raised. *)
Lemma handle_cases (request : CallToolRequest) :
  (exists e, run (handle request) = ([], inl e)
             /\ (e = invalid_id \/ e = invalid_name
                 \/ e = McpError MethodNotFound
                          ("Unknown tool: " ++ name request)
                 \/ exists m, e = TypeError m))
  \/ (exists c shape, run (handle request) = one_call axiosInstance c shape).
Proof.
  rewrite handle_unfold. unfold switch_tool. cbv zeta.
  repeat match goal with
  | |- context [if ?b then _ else _] => destruct b
  end.
  - rewrite run_handleListWorkflows.
    destruct (list_params _ _) as [e|params] eqn:Hp; [left|right; eauto].
    exists e. split; [reflexivity|].
    destruct (list_params_error _ _ Hp) as (m & ->). eauto.
  - destruct (validateWorkflowId_cases (request_arguments request))
      as [H | (i & _ & _ & H)]; rewrite H; cbn [validated].
    + left. exists invalid_id. auto.
    + right. rewrite run_handleGetWorkflow. eauto.
  - destruct (validateCreateWorkflow_cases (request_arguments request))
      as [H | (n & rest & _ & _ & H)]; rewrite H; cbn [validated].
    + left. exists invalid_name. auto.
    + right. rewrite run_handleCreateWorkflow. eauto.
  - destruct (validateUpdateWorkflow_cases (request_arguments request))
      as [H | (i & rest & _ & _ & H & Hrest)]; rewrite H; cbn [validated].
    + left. exists invalid_id. auto.
    + right. rewrite (run_handleUpdateWorkflow i rest Hrest). eauto.
  - destruct (validateWorkflowId_cases (request_arguments request))
      as [H | (i & _ & _ & H)]; rewrite H; cbn [validated].
    + left. exists invalid_id. auto.
    + right. rewrite run_handleDeleteWorkflow. eauto.
  - destruct (validateWorkflowId_cases (request_arguments request))
      as [H | (i & _ & _ & H)]; rewrite H; cbn [validated].
    + left. exists invalid_id. auto.
    + right. rewrite run_handleActivateWorkflow. eauto.
  - destruct (validateWorkflowId_cases (request_arguments request))
      as [H | (i & _ & _ & H)]; rewrite H; cbn [validated].
    + left. exists invalid_id. auto.
    + right. rewrite run_handleDeactivateWorkflow. eauto.
  - destruct (validateExecuteWorkflow_cases (request_arguments request))
      as [H | (i & _ & _ & H)]; rewrite H; cbn [validated].
    + left. exists invalid_id. auto.
    + right. rewrite run_handleExecuteWorkflow. eauto.
  - left. eexists. split; [reflexivity|]. auto.
Qed.

(** An error raised by the HTTP client reaches the caller as it is: the
    promise of the handler is returned from inside [try] without being
    awaited, so the [catch] clause never sees it. *)
Lemma adapter_error_reaches_caller
  (request : CallToolRequest) (c : AxiosCall) (e : AxiosError) :
  In c (calls (handle request)) ->
  axiosInstance c = inl e ->
  outcome (handle request) = inl (AxiosErr e).
Proof.
  unfold calls, outcome.
  destruct (handle_cases request) as [(e' & H & _) | (c' & shape & H)];
    rewrite H; cbn [fst snd one_call].
  - intros [].
  - intros [<-|[]] He. rewrite He. reflexivity.
Qed.

(** No call of the request handler ends in InternalError. *)
Lemma never_InternalError (request : CallToolRequest) (m : string) :
  outcome (handle request) <> inl (McpError InternalError m).
Proof.
  unfold outcome.
  destruct (handle_cases request)
    as [(e' & H & [->|[->|[->|(m' & ->)]]]) | (c' & shape & H)];
    rewrite H; cbn [snd one_call]; try discriminate.
  destruct (axiosInstance c'); discriminate.
Qed.

End Properties.

(** ** Errors of the HTTP client at the request handler *)

(** C5: the translation of an error of the HTTP client is not reached.  A
    list call whose HTTP call is answered by a raised error with the body
    {message: "rate limited"} is rejected with that very error, not with
    InternalError and "n8n API error: rate limited"; that is what the
    [catch] clause makes of the error, had it been entered. *)
Theorem C5_client_error_not_translated :
  run (CallToolHandler number_text (raising rate_limited)
         (call "list_workflows" []))
  = ([axios_get "/workflows" (Some [])], inl (AxiosErr rate_limited))
  /\ run (catch_clause number_text (AxiosErr rate_limited))
     = ([], inl (McpError InternalError "n8n API error: rate limited")).
Proof. split; reflexivity. Qed.

(** ** The properties at concrete calls *)

Lemma C1_create_payload_witness :
  calls (CallToolHandler number_text (answering VNull)
           (call "create_workflow"
              [("name", VStr "w"); ("tags", VArr [VStr "x"]);
               ("active", VBool true)]))
  = [axios_post "/workflows" (Some (create_payload "w"))].
Proof.
  apply (C1_create_payload number_text (answering VNull)
           [("name", VStr "w"); ("tags", VArr [VStr "x"]);
            ("active", VBool true)] "w");
    try reflexivity.
  discriminate.
Defined.

(** C2: a null [connections] is kept by [validateUpdateWorkflow] and sent
    as null in the body of the PATCH, where the specification has the field
    absent and the body empty. *)
Theorem C2_null_connections_sent :
  exists v body,
    validateUpdateWorkflow [("id", VStr "5"); ("connections", VNull)] = inr v
    /\ prop v "connections" = VNull
    /\ calls (CallToolHandler number_text (answering VNull)
                (call "update_workflow"
                   [("id", VStr "5"); ("connections", VNull)]))
       = [axios_patch "/workflows/5" (Some (VObj body))]
    /\ sent_properties body = [("connections", VNull)]
    /\ JSON_stringify number_text (VObj body)
       = JSON_stringify number_text (VObj [("connections", VNull)])
    /\ spec_update_body [("id", VStr "5"); ("connections", VNull)] = [].
Proof.
  do 2 eexists. repeat split; reflexivity.
Qed.

Lemma C3_list_query_witness :
  exists params,
    calls (CallToolHandler number_text (answering VNull)
             (call "list_workflows"
                [("active", VBool true);
                 ("tags", VArr [VStr "a"; VStr "b"])]))
    = [axios_get "/workflows" (Some params)]
    /\ has_own params "active" = true
    /\ prop params "active" = VBool true
    /\ has_own params "tags" = true
    /\ prop params "tags" = VStr "a,b".
Proof.
  destruct (C3_list_query number_text (answering VNull)
              [("active", VBool true); ("tags", VArr [VStr "a"; VStr "b"])])
    as (params & Hc & Ha & Hav & Ht & _ & Htv).
  - right. exists [VStr "a"; VStr "b"], "a,b". split; reflexivity.
  - exists params. repeat split; try assumption.
    exact (Htv ["a"; "b"] eq_refl).
Defined.

(** An empty [tags] is sent as the query parameter [tags] with the empty
    string as its value. *)
Lemma C3_list_counterexample :
  ~ list_as_specified number_text (answering VNull) [("tags", VArr [])].
Proof.
  intros H. specialize (H _ _ eq_refl). destruct H as [_ H]. discriminate H.
Qed.

Lemma C4_execute_data_witness :
  exists v,
    validateExecuteWorkflow [("id", VStr "7"); ("data", VArr [VStr "x"])]
    = inr v
    /\ prop v "data" = VArr [VStr "x"]
    /\ calls (CallToolHandler number_text (answering VNull)
                (call "execute_workflow"
                   [("id", VStr "7"); ("data", VArr [VStr "x"])]))
       = [axios_post "/workflows/7/execute" (Some (VArr [VStr "x"]))].
Proof.
  destruct (C4_execute_data number_text (answering VNull)
              [("id", VStr "7"); ("data", VArr [VStr "x"])] "7")
    as (v & Hv & Hd & Hc); [reflexivity | discriminate |].
  exists v. split; [exact Hv|]. split; [|exact Hc].
  apply Hd. discriminate.
Defined.

(** An array given as [data] is kept by the validator and posted, where
    the specification has the empty mapping. *)
Lemma C4_execute_counterexample :
  ~ execute_as_specified number_text (answering VNull)
      [("id", VStr "7"); ("data", VArr [VStr "x"])].
Proof.
  intros H. destruct (H _ eq_refl) as [Hd _]. discriminate Hd.
Qed.

Lemma C6_missing_id_witness :
  In "delete_workflow" id_tools
  /\ is_string (prop [("id", VBool true)] "id") = false
  /\ run (CallToolHandler number_text (answering VNull)
            (call "delete_workflow" [("id", VBool true)]))
     = ([], inl invalid_id).
Proof.
  split; [simpl; tauto|]. split; [reflexivity|].
  apply (C6_missing_id_no_http_call number_text (answering VNull)
           (call "delete_workflow" [("id", VBool true)]));
    [simpl; tauto | reflexivity].
Defined.

Lemma C7_unknown_tool_witness :
  run (CallToolHandler number_text (answering VNull)
         (call "restart_workflow" []))
  = ([], inl (McpError MethodNotFound "Unknown tool: restart_workflow")).
Proof.
  apply (C7_unknown_tool number_text (answering VNull)
           (call "restart_workflow" [])).
  simpl. intros H.
  repeat (destruct H as [H|H]; [discriminate H|]). exact H.
Defined.



Lemma C10_empty_string_witness :
  run (CallToolHandler number_text (answering VNull)
         (call "get_workflow" [("id", VStr "")]))
  = ([], inl invalid_id)
  /\ run (CallToolHandler number_text (answering VNull)
            (call "create_workflow" [("name", VStr "")]))
     = ([], inl invalid_name).
Proof.
  split.
  - apply (proj1 (C10_empty_string_rejected number_text (answering VNull)
                    (call "get_workflow" [("id", VStr "")])));
      [simpl; tauto | reflexivity].
  - apply (proj2 (C10_empty_string_rejected number_text (answering VNull)
                    (call "create_workflow" [("name", VStr "")])));
      reflexivity.
Defined.

(** * Further properties of the code *)

(** ** Configuration *)

Lemma length_app (s t : string) :
  String.length (s ++ t) = String.length s + String.length t.
Proof. induction s as [|c s IH]; cbn; [reflexivity|now rewrite IH]. Qed.

Lemma substring_whole (t : string) : substring 0 (String.length t) t = t.
Proof. induction t as [|c t IH]; cbn; [reflexivity|now rewrite IH]. Qed.

Lemma substring_after (s t : string) (n : nat) :
  substring (String.length s) n (s ++ t) = substring 0 n t.
Proof. induction s as [|c s IH]; cbn; [reflexivity|exact IH]. Qed.

(** A string is the part before a position followed by the part from it. *)
Lemma substring_split (s : string) (n : nat) :
  n <= String.length s ->
  s = substring 0 n s ++ substring n (String.length s - n) s.
Proof.
  revert n. induction s as [|c s IH]; intros [|n] Hn.
  - reflexivity.
  - cbn in Hn. lia.
  - cbn. now rewrite substring_whole.
  - cbn in Hn. cbn. f_equal. apply IH. lia.
Qed.

Lemma endsWith_app (s t : string) : endsWith (s ++ t) t = true.
Proof.
  unfold endsWith. rewrite length_app.
  replace (String.length s + String.length t <? String.length t)%nat
    with false by (symmetry; apply Nat.ltb_ge; lia).
  replace (String.length s + String.length t - String.length t)
    with (String.length s) by lia.
  rewrite substring_after, substring_whole. apply String.eqb_refl.
Qed.

(** [endsWith] holds exactly of the strings that have [t] as a suffix. *)
Lemma endsWith_iff (s t : string) :
  endsWith s t = true <-> exists p, s = p ++ t.
Proof.
  split.
  - unfold endsWith.
    destruct (String.length s <? String.length t)%nat eqn:L; [discriminate|].
    apply Nat.ltb_ge in L. intros E. apply String.eqb_eq in E.
    exists (substring 0 (String.length s - String.length t) s).
    assert (H : String.length s - String.length t <= String.length s) by lia.
    apply substring_split in H.
    replace (String.length s - (String.length s - String.length t))
      with (String.length t) in H by lia.
    rewrite E in H. exact H.
  - intros (p & ->). apply endsWith_app.
Qed.

Lemma baseUrl_endsWith (API_URL : string) :
  endsWith (baseUrl API_URL) "/api/v1" = true.
Proof.
  unfold baseUrl. destruct (endsWith API_URL "/api/v1") eqn:E;
    [exact E|apply endsWith_app].
Qed.

Lemma baseUrl_kept (API_URL : string) :
  endsWith API_URL "/api/v1" = true -> baseUrl API_URL = API_URL.
Proof. intros E. unfold baseUrl. now rewrite E. Qed.

(** X1: whatever the configured URL, the base URL of the HTTP client ends
    with "/api/v1". *)
Theorem X1_baseUrl_ends_with_api_v1 (API_URL : string) :
  endsWith (baseUrl API_URL) "/api/v1" = true
  /\ exists p, baseUrl API_URL = p ++ "/api/v1".
Proof.
  split; [apply baseUrl_endsWith|].
  apply endsWith_iff, baseUrl_endsWith.
Qed.

(** X2: the suffix is appended at most once: a URL that already ends with
    "/api/v1" is kept as it is, and computing the base URL of a base URL
    changes nothing. *)
Theorem X2_baseUrl_idempotent (API_URL : string) :
  ((exists p, API_URL = p ++ "/api/v1") -> baseUrl API_URL = API_URL)
  /\ baseUrl (baseUrl API_URL) = baseUrl API_URL.
Proof.
  split.
  - intros H. apply baseUrl_kept. now apply endsWith_iff.
  - apply baseUrl_kept, baseUrl_endsWith.
Qed.

Lemma X2_baseUrl_idempotent_witness :
  baseUrl "http://localhost:5678/api/v1" = "http://localhost:5678/api/v1".
Proof.
  apply (proj1 (X2_baseUrl_idempotent "http://localhost:5678/api/v1")).
  exists "http://localhost:5678". reflexivity.
Defined.

(** ** Validators *)

Ltac validated_record H :=
  match type of H with
  | (if ?c then _ else _) = inr _ =>
      destruct c eqn:?; [discriminate H|]; injection H as <-
  end.

Ltac field_by_field :=
  repeat f_equal;
  match goal with
  | |- context [typeof ?x] => destruct x; reflexivity
  | |- context [isArray ?x] => destruct x; reflexivity
  end.

(** X3: validating the record a validator returned gives that record
    again: a validated record is a fixed point of its validator. *)
Theorem X3_validators_idempotent (args v : obj) :
  (validateWorkflowId args = inr v -> validateWorkflowId v = inr v)
  /\ (validateCreateWorkflow args = inr v -> validateCreateWorkflow v = inr v)
  /\ (validateUpdateWorkflow args = inr v -> validateUpdateWorkflow v = inr v)
  /\ (validateExecuteWorkflow args = inr v
      -> validateExecuteWorkflow v = inr v).
Proof.
  repeat split; intros H.
  - unfold validateWorkflowId in H. validated_record H.
    unfold validateWorkflowId.
    cbn [prop String.eqb Ascii.eqb Bool.eqb].
    match goal with E : _ = false |- _ => rewrite E end. reflexivity.
  - unfold validateCreateWorkflow in H. validated_record H.
    unfold validateCreateWorkflow.
    cbn [prop String.eqb Ascii.eqb Bool.eqb].
    match goal with E : _ = false |- _ => rewrite E end.
    field_by_field.
  - unfold validateUpdateWorkflow in H. validated_record H.
    unfold validateUpdateWorkflow.
    cbn [prop String.eqb Ascii.eqb Bool.eqb].
    match goal with E : _ = false |- _ => rewrite E end.
    field_by_field.
  - unfold validateExecuteWorkflow in H. validated_record H.
    unfold validateExecuteWorkflow.
    cbn [prop String.eqb Ascii.eqb Bool.eqb].
    match goal with E : _ = false |- _ => rewrite E end.
    field_by_field.
Qed.

Lemma X3_validators_idempotent_witness :
  validateUpdateWorkflow
    [("id", VStr "5"); ("name", VUndefined); ("nodes", VUndefined);
     ("connections", VNull); ("active", VUndefined); ("tags", VUndefined)]
  = inr [("id", VStr "5"); ("name", VUndefined); ("nodes", VUndefined);
         ("connections", VNull); ("active", VUndefined);
         ("tags", VUndefined)].
Proof.
  apply (proj1 (proj2 (proj2
           (X3_validators_idempotent
              [("id", VStr "5"); ("connections", VNull); ("extra", VBool true)]
              _)))).
  reflexivity.
Defined.

(** X4: the record [validateCreateWorkflow] returns has exactly the six
    fields of [CreateWorkflowArgs], whatever other keys the caller sent, and
    each is typed whatever the caller sent for it: [name] a non-empty
    string, [nodes] and [tags] arrays, [active] a boolean, [connections] of
    type object and [settings] a mapping or an array, never null. *)
Theorem X4_create_record_typed (args v : obj) :
  validateCreateWorkflow args = inr v ->
  map fst v = ["name"; "nodes"; "connections"; "active"; "tags"; "settings"]
  /\ nonempty_string (prop v "name") = true
  /\ isArray (prop v "nodes") = true
  /\ typeof (prop v "connections") = "object"
  /\ is_boolean (prop v "active") = true
  /\ isArray (prop v "tags") = true
  /\ is_mapping_or_array (prop v "settings") = true.
Proof.
  intros H.
  destruct (validateCreateWorkflow_cases args)
    as [E | (n & rest & Hne & Hn & _)]; [rewrite E in H; discriminate|].
  unfold validateCreateWorkflow in H. validated_record H.
  cbn [map fst prop String.eqb Ascii.eqb Bool.eqb].
  repeat split.
  - rewrite Hn. cbn. now rewrite (nonempty_eqb n Hne).
  - destruct (prop args "nodes"); reflexivity.
  - destruct (prop args "connections"); reflexivity.
  - destruct (prop args "active"); reflexivity.
  - destruct (prop args "tags"); reflexivity.
  - destruct (prop args "settings"); reflexivity.
Qed.

Lemma X4_create_record_typed_witness :
  exists v,
    validateCreateWorkflow
      [("name", VStr "w"); ("nodes", VStr "none"); ("settings", VNull);
       ("colour", VStr "red")] = inr v
    /\ map fst v
       = ["name"; "nodes"; "connections"; "active"; "tags"; "settings"]
    /\ isArray (prop v "nodes") = true
    /\ is_mapping_or_array (prop v "settings") = true.
Proof.
  eexists. split; [reflexivity|].
  destruct (X4_create_record_typed
              [("name", VStr "w"); ("nodes", VStr "none"); ("settings", VNull);
               ("colour", VStr "red")] _ eq_refl)
    as (K & _ & N & _ & _ & _ & S).
  repeat split; assumption.
Defined.

(** X5: the record [validateUpdateWorkflow] returns has exactly the six
    fields of [UpdateWorkflowArgs]; [id] is a non-empty string and every
    other field is undefined or of the type tested: [name] a string,
    [nodes] and [tags] arrays, [active] a boolean, [connections] of type
    object.  No field is defaulted. *)
Theorem X5_update_record_typed (args v : obj) :
  validateUpdateWorkflow args = inr v ->
  map fst v = ["id"; "name"; "nodes"; "connections"; "active"; "tags"]
  /\ nonempty_string (prop v "id") = true
  /\ (prop v "name" = VUndefined
      \/ prop v "name" = prop args "name" /\ is_string (prop v "name") = true)
  /\ (prop v "nodes" = VUndefined
      \/ prop v "nodes" = prop args "nodes" /\ isArray (prop v "nodes") = true)
  /\ (prop v "connections" = VUndefined
      \/ prop v "connections" = prop args "connections"
         /\ typeof (prop v "connections") = "object")
  /\ (prop v "active" = VUndefined
      \/ prop v "active" = prop args "active"
         /\ is_boolean (prop v "active") = true)
  /\ (prop v "tags" = VUndefined
      \/ prop v "tags" = prop args "tags" /\ isArray (prop v "tags") = true).
Proof.
  intros H.
  destruct (validateUpdateWorkflow_cases args)
    as [E | (i & rest & Hne & Hi & _)]; [rewrite E in H; discriminate|].
  unfold validateUpdateWorkflow in H. validated_record H.
  cbn [map fst prop String.eqb Ascii.eqb Bool.eqb].
  repeat split.
  - rewrite Hi. cbn. now rewrite (nonempty_eqb i Hne).
  - destruct (prop args "name"); cbn; auto.
  - destruct (prop args "nodes"); cbn; auto.
  - destruct (prop args "connections"); cbn; auto.
  - destruct (prop args "active"); cbn; auto.
  - destruct (prop args "tags"); cbn; auto.
Qed.

Lemma X5_update_record_typed_witness :
  exists v,
    validateUpdateWorkflow [("id", VStr "5"); ("name", VBool true)] = inr v
    /\ map fst v = ["id"; "name"; "nodes"; "connections"; "active"; "tags"]
    /\ prop v "name" = VUndefined.
Proof.
  eexists. split; [reflexivity|].
  destruct (X5_update_record_typed
              [("id", VStr "5"); ("name", VBool true)] _ eq_refl)
    as (K & _ & _).
  split; [exact K|reflexivity].
Defined.

Lemma required_rejected (v : value) :
  nonempty_string v = false ->
  negb (ToBoolean v) || negb (typeof v =? "string") = true.
Proof.
  destruct v as [| |b|n|s|l|o]; cbn; rewrite ?orb_true_r;
    try reflexivity.
  destruct (s =? ""); [reflexivity|discriminate].
Qed.

Lemma required_accepted (v : value) :
  nonempty_string v = true ->
  exists s, v = VStr s /\ s <> ""
    /\ negb (ToBoolean v) || negb (typeof v =? "string") = false.
Proof.
  destruct v as [| |b|n|s|l|o]; cbn; try discriminate.
  intros H. exists s.
  destruct (String.eqb_spec s "") as [E|Hne]; [discriminate|].
  repeat split. exact Hne.
Qed.

Lemma create_body_fields (args : obj) :
  VObj [("name", prop args "name");
        ("nodes",
         or_else (if isArray (prop args "nodes")
                  then prop args "nodes" else VArr []) (VArr []));
        ("connections",
         or_else (if typeof (prop args "connections") =? "object"
                  then prop args "connections" else VObj []) (VObj []));
        ("settings",
         or_else (if (typeof (prop args "settings") =? "object")
                     && negb (match prop args "settings" with
                              | VNull => true
                              | _ => false
                              end)
                  then prop args "settings"
                  else VObj [("executionOrder", VStr "v1")])
           (VObj [("executionOrder", VStr "v1")]))]
  = create_body args.
Proof.
  unfold create_body. repeat f_equal.
  - destruct (prop args "nodes"); reflexivity.
  - destruct (prop args "connections"); reflexivity.
  - destruct (prop args "settings"); reflexivity.
Qed.

Lemma existsb_exists_fst_false (o : obj) (k : string) :
  ~ In k (map fst o) -> existsb (fun kv => fst kv =? k) o = false.
Proof.
  induction o as [|[k' v] o IH]; cbn; [reflexivity|].
  intros H. destruct (String.eqb_spec k' k) as [E|_]; [tauto|].
  apply IH. tauto.
Qed.

(** ** The request handler, for every request *)

Section Requests.

Variable Number_toString : number -> string.
Variable axiosInstance : AxiosCall -> AxiosError + AxiosResponse.

#[local] Abbreviation handle :=
  (CallToolHandler Number_toString axiosInstance).

Ltac in_catalog :=
  rewrite tool_names_eq; simpl; tauto.

Ltac one_request :=
  right; do 2 eexists; split; [reflexivity|];
  repeat split; intros; eexists; reflexivity.

(** The course of a request: an unknown tool; a known tool rejected before
    any HTTP call; or a known tool that makes one HTTP call, with the
    method of the tool and a URL under /workflows, and shapes the response
    into a single text block. *)
Lemma handle_profile (request : CallToolRequest) :
  (~ In (name request) tool_names
   /\ run (handle request)
      = ([], inl (McpError MethodNotFound
                    ("Unknown tool: " ++ name request))))
  \/ (In (name request) tool_names
      /\ ((exists e, run (handle request) = ([], inl e)
                     /\ (e = invalid_id \/ e = invalid_name
                         \/ exists m, e = TypeError m))
          \/ (exists c shape,
                run (handle request) = one_call axiosInstance c shape
                /\ call_method c = tool_method (name request)
                /\ String.prefix "/workflows" (call_url c) = true
                /\ forall r, exists t, shape r = text_content t))).
Proof.
  rewrite handle_unfold. unfold switch_tool. cbv zeta.
  destruct (String.eqb_spec (name request) "list_workflows") as [E|N1].
  { rewrite E. right. split; [in_catalog|].
    rewrite run_handleListWorkflows.
    destruct (list_params _ _) as [e|params] eqn:Hp; [left|one_request].
    exists e. split; [reflexivity|].
    destruct (list_params_error _ _ _ Hp) as (m & ->). eauto. }
  destruct (String.eqb_spec (name request) "get_workflow") as [E|N2].
  { rewrite E. right. split; [in_catalog|].
    destruct (validateWorkflowId_cases (request_arguments request))
      as [H | (i & _ & _ & H)]; rewrite H; cbn [validated].
    - left. exists invalid_id. auto.
    - rewrite run_handleGetWorkflow. one_request. }
  destruct (String.eqb_spec (name request) "create_workflow") as [E|N3].
  { rewrite E. right. split; [in_catalog|].
    destruct (validateCreateWorkflow_cases (request_arguments request))
      as [H | (n & rest & _ & _ & H)]; rewrite H; cbn [validated].
    - left. exists invalid_name. auto.
    - rewrite run_handleCreateWorkflow. one_request. }
  destruct (String.eqb_spec (name request) "update_workflow") as [E|N4].
  { rewrite E. right. split; [in_catalog|].
    destruct (validateUpdateWorkflow_cases (request_arguments request))
      as [H | (i & rest & _ & _ & H & Hrest)]; rewrite H; cbn [validated].
    - left. exists invalid_id. auto.
    - rewrite (run_handleUpdateWorkflow _ _ i rest Hrest). one_request. }
  destruct (String.eqb_spec (name request) "delete_workflow") as [E|N5].
  { rewrite E. right. split; [in_catalog|].
    destruct (validateWorkflowId_cases (request_arguments request))
      as [H | (i & _ & _ & H)]; rewrite H; cbn [validated].
    - left. exists invalid_id. auto.
    - rewrite run_handleDeleteWorkflow. one_request. }
  destruct (String.eqb_spec (name request) "activate_workflow") as [E|N6].
  { rewrite E. right. split; [in_catalog|].
    destruct (validateWorkflowId_cases (request_arguments request))
      as [H | (i & _ & _ & H)]; rewrite H; cbn [validated].
    - left. exists invalid_id. auto.
    - rewrite run_handleActivateWorkflow. one_request. }
  destruct (String.eqb_spec (name request) "deactivate_workflow") as [E|N7].
  { rewrite E. right. split; [in_catalog|].
    destruct (validateWorkflowId_cases (request_arguments request))
      as [H | (i & _ & _ & H)]; rewrite H; cbn [validated].
    - left. exists invalid_id. auto.
    - rewrite run_handleDeactivateWorkflow. one_request. }
  destruct (String.eqb_spec (name request) "execute_workflow") as [E|N8].
  { rewrite E. right. split; [in_catalog|].
    destruct (validateExecuteWorkflow_cases (request_arguments request))
      as [H | (i & _ & _ & H)]; rewrite H; cbn [validated].
    - left. exists invalid_id. auto.
    - rewrite run_handleExecuteWorkflow. one_request. }
  left. split; [|reflexivity].
  rewrite tool_names_eq. simpl. intuition congruence.
Qed.

(** X6: a request is rejected with MethodNotFound exactly when its name is
    not in the catalog: every tool the catalog lists is routed by the
    [switch], and nothing else is. *)
Theorem X6_method_not_found_iff_not_in_catalog (request : CallToolRequest) :
  (exists m, outcome (handle request) = inl (McpError MethodNotFound m))
  <-> ~ In (name request) tool_names.
Proof.
  unfold outcome.
  destruct (handle_profile request)
    as [(Hn & H) | (Hi & [(e & H & He) | (c & shape & H & _)])];
    rewrite H; cbn [snd one_call].
  - split; [auto|]. intros _. eauto.
  - split; [|contradiction]. intros (m & Hm).
    destruct He as [->|[->|(m' & ->)]]; discriminate.
  - split; [|contradiction]. intros (m & Hm).
    destruct (axiosInstance c); discriminate.
Qed.

(** X7: no request makes more than one HTTP call. *)
Theorem X7_at_most_one_call (request : CallToolRequest) :
  length (calls (handle request)) <= 1.
Proof.
  unfold calls.
  destruct (handle_profile request)
    as [(_ & H) | (_ & [(e & H & _) | (c & shape & H & _)])];
    rewrite H; cbn; lia.
Qed.

(** X8: a request that ends in a protocol error or a TypeError made no
    HTTP call: nothing is rejected after the remote service was reached,
    except with the error of the HTTP client itself. *)
Theorem X8_rejection_before_any_call (request : CallToolRequest) (e : exn) :
  outcome (handle request) = inl e ->
  (forall a, e <> AxiosErr a) ->
  calls (handle request) = [].
Proof.
  unfold calls, outcome.
  destruct (handle_profile request)
    as [(_ & H) | (_ & [(e' & H & _) | (c & shape & H & _)])];
    rewrite H; cbn [fst snd one_call]; try reflexivity.
  destruct (axiosInstance c) as [a|r]; [|discriminate].
  intros [= <-] Hna. now destruct (Hna a).
Qed.

(** X9: a request that succeeds made exactly one HTTP call, with the
    method of its tool and a URL under /workflows, and its result is the
    object whose [content] is a single block of type "text". *)
Theorem X9_success_profile (request : CallToolRequest) (result : value) :
  outcome (handle request) = inr result ->
  exists c text,
    calls (handle request) = [c]
    /\ call_method c = tool_method (name request)
    /\ String.prefix "/workflows" (call_url c) = true
    /\ result = VObj [("content",
                       VArr [VObj [("type", VStr "text");
                                   ("text", text)]])].
Proof.
  unfold calls, outcome.
  destruct (handle_profile request)
    as [(_ & H) | (_ & [(e' & H & _) | (c & shape & H & Hm & Hu & Hs)])];
    rewrite H; cbn [fst snd one_call]; try discriminate.
  destruct (axiosInstance c) as [a|r]; [discriminate|].
  intros [= <-]. destruct (Hs r) as (t & Ht).
  exists c, t. auto.
Qed.

(** X10: every HTTP call made for a tool uses the method of that tool (GET
    for list and get, PATCH for update, DELETE for delete, POST for the
    others) and a URL that starts with /workflows. *)
Theorem X10_method_and_url (request : CallToolRequest) (c : AxiosCall) :
  In c (calls (handle request)) ->
  call_method c = tool_method (name request)
  /\ String.prefix "/workflows" (call_url c) = true.
Proof.
  unfold calls.
  destruct (handle_profile request)
    as [(_ & H) | (_ & [(e' & H & _) | (c' & shape & H & Hm & Hu & _)])];
    rewrite H; cbn [fst one_call];
    [intros [] | intros [] | intros [<-|[]]; auto].
Qed.

(** X11: every argument the catalog marks as required is enforced: a
    call of a tool without a non-empty string for it is rejected with
    InvalidParams naming that argument, and no HTTP call is made. *)
Theorem X11_required_arguments_enforced
  (request : CallToolRequest) (t : Tool) (k : string) :
  In t tools -> name request = tool_name t -> In k (required t) ->
  nonempty_string (prop (request_arguments request) k) = false ->
  run (handle request) = ([], inl (invalid_required k)).
Proof.
  intros Ht Hname Hk Hv.
  apply sync_throw_propagates;
    [|unfold invalid_required; destruct (k =? "name"); discriminate].
  unfold switch_tool. rewrite Hname.
  simpl in Ht.
  destruct Ht as [<-|[<-|[<-|[<-|[<-|[<-|[<-|[<-|[]]]]]]]]];
    simpl in Hk; try contradiction; destruct Hk as [<-|[]];
    cbn [tool_name String.eqb Ascii.eqb Bool.eqb];
    unfold validateWorkflowId, validateCreateWorkflow,
      validateUpdateWorkflow, validateExecuteWorkflow;
    rewrite (required_rejected _ Hv); reflexivity.
Qed.

(** X12: only the required arguments can cause a rejection: when they are
    non-empty strings the request is never rejected with InvalidParams,
    whatever the other arguments are, and every tool but list makes its
    HTTP call. *)
Theorem X12_optional_arguments_never_rejected
  (request : CallToolRequest) (t : Tool) :
  In t tools -> name request = tool_name t ->
  (forall k, In k (required t) ->
     nonempty_string (prop (request_arguments request) k) = true) ->
  (forall m, outcome (handle request) <> inl (McpError InvalidParams m))
  /\ (tool_name t <> "list_workflows" ->
      exists c, calls (handle request) = [c]).
Proof.
  intros Ht Hname Hreq. unfold outcome, calls.
  rewrite handle_unfold. unfold switch_tool. rewrite Hname.
  simpl in Ht.
  destruct Ht as [<-|[<-|[<-|[<-|[<-|[<-|[<-|[<-|[]]]]]]]]];
    cbn [tool_name String.eqb Ascii.eqb Bool.eqb];
    try (destruct (required_accepted _ (Hreq _ (or_introl eq_refl)))
           as (s & Hs & Hne & Hc)).
  - rewrite run_handleListWorkflows.
    destruct (list_params _ _) as [e|params] eqn:Hp.
    + destruct (list_params_error _ _ _ Hp) as (m' & ->).
      split; [discriminate|]. intros H. now destruct H.
    + unfold one_call. cbn [fst snd].
      split; [|eauto]. destruct (axiosInstance _); discriminate.
  - rewrite (validateWorkflowId_ok _ s Hs Hne). cbn [validated].
    rewrite run_handleGetWorkflow. unfold one_call. cbn [fst snd].
    split; [|eauto]. destruct (axiosInstance _); discriminate.
  - unfold validateCreateWorkflow. rewrite Hc. cbn [validated].
    rewrite run_handleCreateWorkflow. unfold one_call. cbn [fst snd].
    split; [|eauto]. destruct (axiosInstance _); discriminate.
  - unfold validateUpdateWorkflow. rewrite Hc, Hs. cbn [validated].
    rewrite run_handleUpdateWorkflow by reflexivity.
    unfold one_call. cbn [fst snd].
    split; [|eauto]. destruct (axiosInstance _); discriminate.
  - rewrite (validateWorkflowId_ok _ s Hs Hne). cbn [validated].
    rewrite run_handleDeleteWorkflow. unfold one_call. cbn [fst snd].
    split; [|eauto]. destruct (axiosInstance _); discriminate.
  - rewrite (validateWorkflowId_ok _ s Hs Hne). cbn [validated].
    rewrite run_handleActivateWorkflow. unfold one_call. cbn [fst snd].
    split; [|eauto]. destruct (axiosInstance _); discriminate.
  - rewrite (validateWorkflowId_ok _ s Hs Hne). cbn [validated].
    rewrite run_handleDeactivateWorkflow. unfold one_call. cbn [fst snd].
    split; [|eauto]. destruct (axiosInstance _); discriminate.
  - unfold validateExecuteWorkflow. rewrite Hc, Hs. cbn [validated].
    rewrite run_handleExecuteWorkflow. unfold one_call. cbn [fst snd].
    split; [|eauto]. destruct (axiosInstance _); discriminate.
Qed.

(** *** After the HTTP call *)

(** X13: once a request has made its HTTP call, any response the HTTP
    client returns becomes a successful result: the object whose [content]
    is a single block of type "text". *)
Theorem X13_outcome_follows_client
  (request : CallToolRequest) (c : AxiosCall) (r : AxiosResponse) :
  In c (calls (handle request)) ->
  axiosInstance c = inr r ->
  exists text,
    outcome (handle request)
    = inr (VObj [("content",
                  VArr [VObj [("type", VStr "text"); ("text", text)]])]).
Proof.
  unfold calls, outcome.
  destruct (handle_profile request)
    as [(_ & H) | (_ & [(e' & H & _) | (c' & shape & H & _ & _ & Hs)])];
    rewrite H; cbn [fst snd one_call];
    [intros [] | intros [] | intros [<-|[]]].
  intros ->. destruct (Hs r) as (t & ->). exists t. reflexivity.
Qed.

(** X14: with [validateStatus] as configured, an answer of the remote
    service with a status below 500, a 4xx too, never fails the request:
    the result is the object whose [content] is a single block of type
    "text". *)
Theorem X14_status_below_500_succeeds
  (remote : AxiosCall -> Z * value)
  (request : CallToolRequest) (c : AxiosCall) :
  respects_validateStatus remote axiosInstance ->
  In c (calls (handle request)) ->
  (fst (remote c) < 500)%Z ->
  exists text,
    outcome (handle request)
    = inr (VObj [("content",
                  VArr [VObj [("type", VStr "text"); ("text", text)]])]).
Proof.
  intros Hax Hc Hst.
  assert (Hv : validateStatus (fst (remote c)) = true)
    by (apply Z.ltb_lt; exact Hst).
  unfold calls, outcome in *.
  destruct (handle_profile request)
    as [(_ & H) | (_ & [(e' & H & _) | (c' & shape & H & _ & _ & Hs)])];
    rewrite H in *; cbn [fst snd one_call] in *;
    [destruct Hc | destruct Hc | destruct Hc as [<-|[]]].
  rewrite (Hax _ Hv).
  destruct (Hs {| status := fst (remote c'); data := snd (remote c') |})
    as (t & ->).
  exists t. reflexivity.
Qed.

(** *** List *)

(** X16: a list call whose [tags] is truthy but not an array (a string,
    a number, true, an object) fails with a TypeError before any HTTP call:
    list validates nothing. *)
Theorem X16_list_tags_not_an_array (args : obj) :
  ToBoolean (prop args "tags") = true ->
  isArray (prop args "tags") = false ->
  run (handle (call "list_workflows" args))
  = ([], inl (TypeError "args.tags.join is not a function")).
Proof.
  intros Ht Ha. rewrite handle_unfold.
  change (switch_tool Number_toString axiosInstance
            (call "list_workflows" args)
            (request_arguments (call "list_workflows" args)))
    with (@inr exn _ (handleListWorkflows Number_toString axiosInstance args)).
  cbv iota. rewrite run_handleListWorkflows, list_params_eq, Ht.
  destruct (prop args "tags"); try discriminate; reflexivity.
Qed.

(** X17: a list call requests exactly /workflows, and its query holds no
    other parameter than [active] and [tags]: no other argument of the
    caller is forwarded. *)
Theorem X17_list_query_keys (args : obj) (c : AxiosCall) :
  In c (calls (handle (call "list_workflows" args))) ->
  exists params,
    c = axios_get "/workflows" (Some params)
    /\ forall k, has_own params k = true -> k = "active" \/ k = "tags".
Proof.
  unfold calls. rewrite handle_unfold.
  change (switch_tool Number_toString axiosInstance
            (call "list_workflows" args)
            (request_arguments (call "list_workflows" args)))
    with (@inr exn _ (handleListWorkflows Number_toString axiosInstance args)).
  cbv iota. rewrite run_handleListWorkflows, list_params_eq.
  assert (Hk : forall k, has_own (kept "active" is_defined args) k = true ->
                         k = "active").
  { intros k. unfold kept. destruct (is_defined _); [|discriminate].
    cbn [has_own existsb fst]. rewrite orb_false_r.
    intros E. apply String.eqb_eq in E. now symmetry. }
  destruct (ToBoolean (prop args "tags"));
    [destruct (call_join _ _ _) as [e|s]|];
    cbn [fst one_call].
  - intros [].
  - intros [<-|[]]. eexists. split; [reflexivity|].
    intros k. rewrite has_own_app. intros H.
    apply orb_true_iff in H. destruct H as [H|H]; [left; now apply Hk|].
    right. cbn [has_own existsb fst] in H. rewrite orb_false_r in H.
    apply String.eqb_eq in H. now symmetry.
  - intros [<-|[]]. eexists. split; [reflexivity|].
    intros k H. left. now apply Hk.
Qed.

(** *** Get, activate and deactivate *)



(** *** Create and update *)

Lemma create_run (args : obj) (n : string) :
  prop args "name" = VStr n -> n <> "" ->
  run (handle (call "create_workflow" args))
  = one_call axiosInstance
      (axios_post "/workflows" (Some (create_body args)))
      (fun r => text_content (JSON_stringify_2 Number_toString (data r))).
Proof.
  intros Hn Hne. rewrite handle_unfold.
  change (switch_tool Number_toString axiosInstance
            (call "create_workflow" args)
            (request_arguments (call "create_workflow" args)))
    with (validated (validateCreateWorkflow args)
            (handleCreateWorkflow Number_toString axiosInstance)).
  unfold validateCreateWorkflow.
  replace (negb (ToBoolean (prop args "name"))
           || negb (typeof (prop args "name") =? "string")) with false
    by (rewrite Hn; cbn; now rewrite (nonempty_eqb n Hne)).
  cbn [validated]. rewrite run_handleCreateWorkflow.
  cbn [prop String.eqb Ascii.eqb Bool.eqb].
  rewrite create_body_fields. reflexivity.
Qed.

(** X20: a create call with a non-empty string [name] posts to /workflows
    the name with [nodes] as given when it is an array and the empty array
    otherwise, [connections] as given when it is a mapping or an array and
    the empty mapping otherwise, and [settings] as given when it is a
    mapping or an array, without merging the default into it, and
    {executionOrder: "v1"} otherwise. *)
Theorem X20_create_body (args : obj) (n : string) :
  prop args "name" = VStr n -> n <> "" ->
  calls (handle (call "create_workflow" args))
  = [axios_post "/workflows" (Some (create_body args))].
Proof.
  intros Hn Hne. unfold calls. rewrite (create_run args n Hn Hne).
  reflexivity.
Qed.

(** X21: whatever the arguments, the body of a create request has exactly
    the keys name, nodes, connections and settings, none of them undefined
    or null: [nodes] is an array and [connections] and [settings] are
    mappings or arrays.  A null [connections] is replaced by the empty
    mapping here. *)
Theorem X21_create_body_fields_defined (args : obj) (c : AxiosCall) :
  In c (calls (handle (call "create_workflow" args))) ->
  exists o,
    c = axios_post "/workflows" (Some (VObj o))
    /\ map fst o = ["name"; "nodes"; "connections"; "settings"]
    /\ sent_properties o = o
    /\ nonempty_string (prop o "name") = true
    /\ isArray (prop o "nodes") = true
    /\ is_mapping_or_array (prop o "connections") = true
    /\ is_mapping_or_array (prop o "settings") = true.
Proof.
  unfold calls.
  destruct (validateCreateWorkflow_cases args)
    as [E | (n & rest & Hne & Hn & _)].
  - rewrite handle_unfold.
    change (switch_tool Number_toString axiosInstance
              (call "create_workflow" args)
              (request_arguments (call "create_workflow" args)))
      with (validated (validateCreateWorkflow args)
              (handleCreateWorkflow Number_toString axiosInstance)).
    rewrite E. intros [].
  - rewrite (create_run args n Hn Hne). cbn [fst one_call].
    intros [<-|[]]. eexists. split; [reflexivity|].
    rewrite Hn. cbn [map fst prop String.eqb Ascii.eqb Bool.eqb].
    assert (Hd : negb (n =? "") = true) by now rewrite (nonempty_eqb n Hne).
    unfold sent_properties. cbn [filter snd is_defined nonempty_string].
    rewrite Hd.
    destruct (prop args "nodes"), (prop args "connections"),
      (prop args "settings"); repeat split; reflexivity.
Qed.

(** X22: the body of an update request never holds [id], which only
    appears in the URL, and its keys are name, nodes, connections, active
    and tags, whatever other keys the caller sent. *)
Theorem X22_update_body_excludes_id (args : obj) (c : AxiosCall) :
  In c (calls (handle (call "update_workflow" args))) ->
  exists i body,
    prop args "id" = VStr i
    /\ c = axios_patch ("/workflows/" ++ i) (Some (VObj body))
    /\ map fst body = ["name"; "nodes"; "connections"; "active"; "tags"]
    /\ has_own body "id" = false.
Proof.
  destruct (validateUpdateWorkflow_cases args)
    as [E | (i & rest & Hne & Hi & _)].
  - unfold calls. rewrite handle_unfold.
    change (switch_tool Number_toString axiosInstance
              (call "update_workflow" args)
              (request_arguments (call "update_workflow" args)))
      with (validated (validateUpdateWorkflow args)
              (handleUpdateWorkflow Number_toString axiosInstance)).
    rewrite E. intros [].
  - destruct (update_calls Number_toString axiosInstance args i Hi Hne)
      as (body & _ & Hk & Hc & _).
    rewrite Hc. intros [<-|[]]. exists i, body.
    repeat split; try assumption.
    unfold has_own. rewrite existsb_exists_fst_false; [reflexivity|].
    rewrite Hk. cbn. intuition discriminate.
Qed.

End Requests.

(** ** The further properties at concrete calls *)

Lemma settling_respects (remote : AxiosCall -> Z * value) :
  respects_validateStatus remote (settling remote).
Proof. intros c Hv. unfold settling. now rewrite Hv. Qed.

Lemma X6_method_not_found_witness :
  exists m,
    outcome (CallToolHandler number_text (answering VNull)
               (call "restart_workflow" []))
    = inl (McpError MethodNotFound m).
Proof.
  apply (proj2 (X6_method_not_found_iff_not_in_catalog number_text
                  (answering VNull) (call "restart_workflow" []))).
  simpl. intuition discriminate.
Defined.

Lemma X8_rejection_before_any_call_witness :
  calls (CallToolHandler number_text (answering VNull)
           (call "get_workflow" []))
  = [].
Proof.
  apply (X8_rejection_before_any_call number_text (answering VNull)
           (call "get_workflow" []) invalid_id);
    [reflexivity | discriminate].
Defined.

Lemma X9_success_profile_witness :
  exists c text,
    calls (CallToolHandler number_text (answering VNull)
             (call "delete_workflow" [("id", VStr "7")]))
    = [c]
    /\ call_method c = DELETE
    /\ String.prefix "/workflows" (call_url c) = true
    /\ VObj [("content",
              VArr [VObj [("type", VStr "text");
                          ("text", VStr "Workflow 7 deleted successfully")]])]
       = VObj [("content",
                VArr [VObj [("type", VStr "text"); ("text", text)]])].
Proof.
  apply (X9_success_profile number_text (answering VNull)
           (call "delete_workflow" [("id", VStr "7")])
           (VObj [("content",
                   VArr [VObj [("type", VStr "text");
                               ("text",
                                VStr "Workflow 7 deleted successfully")]])])).
  reflexivity.
Defined.

Lemma X10_method_and_url_witness :
  call_method (axios_patch "/workflows/5"
                 (Some (VObj [("name", VStr "renamed");
                              ("nodes", VUndefined);
                              ("connections", VUndefined);
                              ("active", VUndefined);
                              ("tags", VUndefined)])))
  = PATCH
  /\ String.prefix "/workflows" "/workflows/5" = true.
Proof.
  apply (X10_method_and_url number_text (answering VNull)
           (call "update_workflow"
              [("id", VStr "5"); ("name", VStr "renamed")])).
  left. reflexivity.
Defined.

Lemma X11_required_arguments_witness :
  run (CallToolHandler number_text (answering VNull)
         (call "create_workflow" [("nodes", VArr [])]))
  = ([], inl invalid_name).
Proof.
  apply (X11_required_arguments_enforced number_text (answering VNull)
           (call "create_workflow" [("nodes", VArr [])])
           {| tool_name := "create_workflow";
              description := "Create a new workflow";
              required := ["name"] |} "name");
    [simpl; tauto | reflexivity | simpl; tauto | reflexivity].
Defined.

Lemma X12_optional_arguments_witness :
  exists c,
    calls (CallToolHandler number_text (answering VNull)
             (call "create_workflow"
                [("name", VStr "w"); ("nodes", VStr "none");
                 ("active", VStr "yes")]))
    = [c].
Proof.
  apply (proj2 (X12_optional_arguments_never_rejected number_text
                  (answering VNull)
                  (call "create_workflow"
                     [("name", VStr "w"); ("nodes", VStr "none");
                      ("active", VStr "yes")])
                  {| tool_name := "create_workflow";
                     description := "Create a new workflow";
                     required := ["name"] |}
                  ltac:(simpl; tauto) eq_refl
                  ltac:(intros k [<-|[]]; reflexivity))).
  discriminate.
Defined.

Lemma X13_outcome_follows_client_witness :
  exists text,
    outcome (CallToolHandler number_text
               (answering (VObj [("message", VStr "Not Found")]))
               (call "get_workflow" [("id", VStr "7")]))
    = inr (VObj [("content",
                  VArr [VObj [("type", VStr "text"); ("text", text)]])]).
Proof.
  apply (X13_outcome_follows_client number_text
           (answering (VObj [("message", VStr "Not Found")]))
           (call "get_workflow" [("id", VStr "7")])
           (axios_get "/workflows/7" None)
           {| status := 200; data := VObj [("message", VStr "Not Found")] |}).
  - left. reflexivity.
  - reflexivity.
Defined.

Lemma X14_status_below_500_witness :
  exists text,
    outcome (CallToolHandler number_text
               (settling (fun _ => (404%Z,
                                    VObj [("message", VStr "Not Found")])))
               (call "get_workflow" [("id", VStr "7")]))
    = inr (VObj [("content",
                  VArr [VObj [("type", VStr "text"); ("text", text)]])]).
Proof.
  apply (X14_status_below_500_succeeds number_text
           (settling (fun _ => (404%Z, VObj [("message", VStr "Not Found")])))
           (fun _ => (404%Z, VObj [("message", VStr "Not Found")]))
           (call "get_workflow" [("id", VStr "7")])
           (axios_get "/workflows/7" None)).
  - apply settling_respects.
  - left. reflexivity.
  - reflexivity.
Defined.

Lemma X16_list_tags_not_an_array_witness :
  run (CallToolHandler number_text (answering VNull)
         (call "list_workflows" [("tags", VStr "a,b")]))
  = ([], inl (TypeError "args.tags.join is not a function")).
Proof.
  apply (X16_list_tags_not_an_array number_text (answering VNull)
           [("tags", VStr "a,b")]); reflexivity.
Defined.

Lemma X17_list_query_keys_witness :
  exists params,
    axios_get "/workflows" (Some [("active", VBool false)])
    = axios_get "/workflows" (Some params)
    /\ forall k, has_own params k = true -> k = "active" \/ k = "tags".
Proof.
  apply (X17_list_query_keys number_text (answering VNull)
           [("limit", VStr "10"); ("active", VBool false)]).
  left. reflexivity.
Defined.



Lemma X20_create_body_witness :
  calls (CallToolHandler number_text (answering VNull)
           (call "create_workflow"
              [("name", VStr "w"); ("connections", VNull);
               ("settings", VObj [("timezone", VStr "UTC")])]))
  = [axios_post "/workflows"
       (Some (VObj [("name", VStr "w"); ("nodes", VArr []);
                    ("connections", VObj []);
                    ("settings", VObj [("timezone", VStr "UTC")])]))].
Proof.
  apply (X20_create_body number_text (answering VNull)
           [("name", VStr "w"); ("connections", VNull);
            ("settings", VObj [("timezone", VStr "UTC")])] "w");
    [reflexivity | discriminate].
Defined.

Lemma X21_create_body_fields_witness :
  exists o,
    axios_post "/workflows"
      (Some (VObj [("name", VStr "w"); ("nodes", VArr []);
                   ("connections", VObj []);
                   ("settings", VObj [("executionOrder", VStr "v1")])]))
    = axios_post "/workflows" (Some (VObj o))
    /\ map fst o = ["name"; "nodes"; "connections"; "settings"]
    /\ sent_properties o = o
    /\ nonempty_string (prop o "name") = true
    /\ isArray (prop o "nodes") = true
    /\ is_mapping_or_array (prop o "connections") = true
    /\ is_mapping_or_array (prop o "settings") = true.
Proof.
  apply (X21_create_body_fields_defined number_text (answering VNull)
           [("name", VStr "w"); ("connections", VNull);
            ("settings", VNull)]).
  left. reflexivity.
Defined.

Lemma X22_update_body_witness :
  exists i body,
    prop [("id", VStr "5"); ("owner", VStr "me")] "id" = VStr i
    /\ axios_patch "/workflows/5"
         (Some (VObj [("name", VUndefined); ("nodes", VUndefined);
                      ("connections", VUndefined); ("active", VUndefined);
                      ("tags", VUndefined)]))
       = axios_patch ("/workflows/" ++ i) (Some (VObj body))
    /\ map fst body = ["name"; "nodes"; "connections"; "active"; "tags"]
    /\ has_own body "id" = false.
Proof.
  apply (X22_update_body_excludes_id number_text (answering VNull)
           [("id", VStr "5"); ("owner", VStr "me")]).
  left. reflexivity.
Defined.
